(** * Shopping-list aggregation and PDF export of [backend/api/views.py]

    A shallow embedding of [RecipeViewSet.post_list], [delete_list],
    [favorite], [shopping_cart], [download_shopping_cart] and of the module
    function [convert_pdf], followed by the properties of the shopping-list
    feature.

    Conventions of the embedding:
    - a Python [str] is a Rocq [string] holding its UTF-8 encoding, so that
      [s.encode()] is the identity on the bytes and an f-string is a
      concatenation;
    - a Python [int] is a [Z] (no wrap-around);
    - the [dict] built by the view is an association list in insertion
      order with unique keys, which is what a Python dict iterates;
    - a function that may raise returns a [result]. *)

From Stdlib Require Import ZArith List String Ascii Bool Lia DecimalString.
Import ListNotations.

Set Implicit Arguments.

Local Open Scope string_scope.
Local Open Scope Z_scope.

(* ===================================================================== *)
(** ** Insertion-ordered dictionaries *)
(* ===================================================================== *)

Module PyDict.

Section Ops.
Variable V : Type.

(** [dict] with [str] keys: the pairs in insertion order. *)
Definition t : Type := list (string * V).

(** [{}] *)
Definition empty : t := [].

(** [k in d] *)
Fixpoint contains (k : string) (d : t) : bool :=
  match d with
  | [] => false
  | (k', _) :: d' => if String.eqb k k' then true else contains k d'
  end.

(** [d.get(k)] *)
Fixpoint get (k : string) (d : t) : option V :=
  match d with
  | [] => None
  | (k', v) :: d' => if String.eqb k k' then Some v else get k d'
  end.

(** [d[k] = v]: an existing key keeps its place, a new key goes last. *)
Fixpoint setitem (k : string) (v : V) (d : t) : t :=
  match d with
  | [] => [(k, v)]
  | (k', v') :: d' =>
      if String.eqb k k' then (k', v) :: d' else (k', v') :: setitem k v d'
  end.

(** In-place update of the value stored under [k] (the object [d[k]] is
    mutated, the dictionary keeps its keys and their order). *)
Fixpoint update (k : string) (f : V -> V) (d : t) : t :=
  match d with
  | [] => []
  | (k', v') :: d' =>
      if String.eqb k k' then (k', f v') :: d' else (k', v') :: update k f d'
  end.

(** [list(d.keys())] and [list(d.items())] *)
Definition keys (d : t) : list string := map fst d.
Definition items (d : t) : list (string * V) := d.

End Ops.

(** The same keys in the same order, every value passed through [g]. *)
Definition map_values {V W : Type} (g : V -> W) (d : t V) : t W :=
  map (fun kv => (fst kv, g (snd kv))) d.

End PyDict.

(* ===================================================================== *)
(** ** The aggregation loop of [download_shopping_cart] *)
(* ===================================================================== *)

(** One row of
    [values_list('ingredient__name', 'ingredient__measurement_unit', 'amount')]:
    [item[0]], [item[1]], [item[2]]. *)
Definition line_item : Type := string * string * Z.

Definition item0 (item : line_item) : string := fst (fst item).
Definition item1 (item : line_item) : string := snd (fst item).
Definition item2 (item : line_item) : Z := snd item.

(** The inner dictionary [{'measurement_unit': ..., 'amount': ...}]; its two
    keys are fixed, in this order. *)
Record info : Type := mk_info {
  measurement_unit : string;
  amount : Z
}.

Definition ingredient_dict : Type := PyDict.t info.

(** [ingredient_list[name]['amount'] += x] *)
Definition iadd_amount (x : Z) (i : info) : info :=
  {| measurement_unit := measurement_unit i; amount := amount i + x |}.

(** Body of [for item in recipe_ingredients]. *)
Definition aggregate_step (ingredient_list : ingredient_dict) (item : line_item)
  : ingredient_dict :=
  let name := item0 item in
  if negb (PyDict.contains name ingredient_list) then
    PyDict.setitem name
      {| measurement_unit := item1 item; amount := item2 item |}
      ingredient_list
  else
    PyDict.update name (iadd_amount (item2 item)) ingredient_list.

(** Lines 165-179: start from [{}] and run the loop over the rows in the
    order the query returns them. *)
Definition aggregate (recipe_ingredients : list line_item) : ingredient_dict :=
  fold_left aggregate_step recipe_ingredients (PyDict.empty info).


(* ===================================================================== *)
(** ** Exceptions and the data store *)
(* ===================================================================== *)

(** The exceptions the modelled code can raise. *)
Inductive exn : Type :=
| TTFError (path : string)   (* reportlab: the font file cannot be opened *)
| KeyError (key : string)    (* reportlab: [setFont] on an unknown font *)
| Http404.                   (* [get_object_or_404] *)

Inductive result (A : Type) : Type :=
| Ok (a : A)
| Raise (e : exn).

Arguments Ok {A} a.
Arguments Raise {A} e.

(** The two models [post_list] and [delete_list] are called with. *)
Inductive list_model : Type := Favorite | ShoppingCart.

(** [model.__name__] *)
Definition model_name (model : list_model) : string :=
  match model with
  | Favorite => "Favorite"
  | ShoppingCart => "ShoppingCart"
  end.

(** A row of [Favorite] or of [ShoppingCart]: a user and a recipe. *)
Record list_row : Type := mk_row {
  row_user : Z;
  row_recipe : Z
}.

(** A row of [RecipeIngredient] joined with its [Ingredient]. *)
Record recipe_ingredient : Type := mk_ri {
  ri_recipe : Z;
  ri_name : string;
  ri_measurement_unit : string;
  ri_amount : Z
}.

(** Modelled from the spec: [recipes.models] is not among the sources. The
    tables are those the view queries: recipes by primary key, the
    recipe-ingredient associations with the ingredient's name and unit and
    an integer amount, and the favorites and shopping-cart entries, each
    associating a user with a recipe. *)
Record db : Type := mk_db {
  recipe_table : list Z;
  recipe_ingredient_table : list recipe_ingredient;
  favorite_table : list list_row;
  shopping_cart_table : list list_row
}.

(** [model.objects] *)
Definition objects (model : list_model) (s : db) : list list_row :=
  match model with
  | Favorite => favorite_table s
  | ShoppingCart => shopping_cart_table s
  end.

Definition set_objects (model : list_model) (rows : list list_row) (s : db) : db :=
  match model with
  | Favorite =>
      {| recipe_table := recipe_table s;
         recipe_ingredient_table := recipe_ingredient_table s;
         favorite_table := rows;
         shopping_cart_table := shopping_cart_table s |}
  | ShoppingCart =>
      {| recipe_table := recipe_table s;
         recipe_ingredient_table := recipe_ingredient_table s;
         favorite_table := favorite_table s;
         shopping_cart_table := rows |}
  end.

(** The predicate of [filter(user=user, recipe__id=pk)]. *)
Definition row_matches (user pk : Z) (r : list_row) : bool :=
  (row_user r =? user) && (row_recipe r =? pk).

(** [model.objects.filter(user=user, recipe__id=pk).exists()] *)
Definition filter_exists (model : list_model) (user pk : Z) (s : db) : bool :=
  existsb (row_matches user pk) (objects model s).

(** [model.objects.create(user=user, recipe=recipe)] *)
Definition objects_create (model : list_model) (user pk : Z) (s : db) : db :=
  set_objects model (objects model s ++ [mk_row user pk]) s.

(** [model.objects.filter(user=user, recipe__id=pk).delete()] *)
Definition filter_delete (model : list_model) (user pk : Z) (s : db) : db :=
  set_objects model
    (filter (fun r => negb (row_matches user pk r)) (objects model s)) s.

(** [Recipe.objects.filter(pk=pk).exists()], the test behind
    [Recipe.objects.get(pk=pk)] and [get_object_or_404(Recipe, pk=pk)]. *)
Definition recipe_exists (pk : Z) (s : db) : bool :=
  existsb (Z.eqb pk) (recipe_table s).

(** [get_object_or_404(Recipe, pk=pk)]; the recipe is identified by its key. *)
Definition get_object_or_404 (pk : Z) (s : db) : result Z :=
  if recipe_exists pk s then Ok pk else Raise Http404.

(** [RecipeIngredient.objects.filter(recipe__cart__user=user).values_list(
    'ingredient__name', 'ingredient__measurement_unit', 'amount')]: the join
    of the associations with the user's cart entries, one row per matching
    pair, in table order. *)
Definition cart_line_items (user : Z) (s : db) : list line_item :=
  flat_map
    (fun ri =>
       map (fun _ => (ri_name ri, ri_measurement_unit ri, ri_amount ri))
           (filter (fun c => (row_recipe c =? ri_recipe ri) && (row_user c =? user))
                   (shopping_cart_table s)))
    (recipe_ingredient_table s).


(* ===================================================================== *)
(** ** Library functions used by the export: MD5, [str] of an int *)
(* ===================================================================== *)

Module MD5.

(** [hashlib.md5(data).hexdigest()] (RFC 1321) on 32-bit words kept in [Z],
    every addition reduced modulo [2^32]. Bytes are integers below 256. *)

Definition w32 (x : Z) : Z := x mod 4294967296.

Definition rotl32 (x c : Z) : Z :=
  Z.lor (w32 (Z.shiftl x c)) (Z.shiftr x (32 - c)).

Definition not32 (x : Z) : Z := Z.lxor x 0xffffffff.

(** Per-round left-rotation amounts. *)
Definition shifts : list Z :=
  [7; 12; 17; 22; 7; 12; 17; 22; 7; 12; 17; 22; 7; 12; 17; 22;
   5; 9; 14; 20; 5; 9; 14; 20; 5; 9; 14; 20; 5; 9; 14; 20;
   4; 11; 16; 23; 4; 11; 16; 23; 4; 11; 16; 23; 4; 11; 16; 23;
   6; 10; 15; 21; 6; 10; 15; 21; 6; 10; 15; 21; 6; 10; 15; 21].

(** [floor(2^32 * abs(sin(i + 1)))] for [i] in 0..63. *)
Definition sines : list Z :=
  [0xd76aa478; 0xe8c7b756; 0x242070db; 0xc1bdceee;
   0xf57c0faf; 0x4787c62a; 0xa8304613; 0xfd469501;
   0x698098d8; 0x8b44f7af; 0xffff5bb1; 0x895cd7be;
   0x6b901122; 0xfd987193; 0xa679438e; 0x49b40821;
   0xf61e2562; 0xc040b340; 0x265e5a51; 0xe9b6c7aa;
   0xd62f105d; 0x02441453; 0xd8a1e681; 0xe7d3fbc8;
   0x21e1cde6; 0xc33707d6; 0xf4d50d87; 0x455a14ed;
   0xa9e3e905; 0xfcefa3f8; 0x676f02d9; 0x8d2a4c8a;
   0xfffa3942; 0x8771f681; 0x6d9d6122; 0xfde5380c;
   0xa4beea44; 0x4bdecfa9; 0xf6bb4b60; 0xbebfbc70;
   0x289b7ec6; 0xeaa127fa; 0xd4ef3085; 0x04881d05;
   0xd9d4d039; 0xe6db99e5; 0x1fa27cf8; 0xc4ac5665;
   0xf4292244; 0x432aff97; 0xab9423a7; 0xfc93a039;
   0x655b59c3; 0x8f0ccc92; 0xffeff47d; 0x85845dd1;
   0x6fa87e4f; 0xfe2ce6e0; 0xa3014314; 0x4e0811a1;
   0xf7537e82; 0xbd3af235; 0x2ad7d2bb; 0xeb86d391].

(** The round functions F, G, H and I. *)
Definition mix (i : nat) (b c d : Z) : Z :=
  if (i <? 16)%nat then Z.lor (Z.land b c) (Z.land (not32 b) d)
  else if (i <? 32)%nat then Z.lor (Z.land d b) (Z.land (not32 d) c)
  else if (i <? 48)%nat then Z.lxor (Z.lxor b c) d
  else Z.lxor c (Z.lor b (not32 d)).

Definition word_index (i : nat) : nat :=
  if (i <? 16)%nat then i
  else if (i <? 32)%nat then ((5 * i + 1) mod 16)%nat
  else if (i <? 48)%nat then ((3 * i + 5) mod 16)%nat
  else ((7 * i) mod 16)%nat.

Definition state : Type := Z * Z * Z * Z.

Definition round (M : list Z) (st : state) (i : nat) : state :=
  let '(a, b, c, d) := st in
  let f := w32 (mix i b c d + a + nth i sines 0 + nth (word_index i) M 0) in
  (d, w32 (b + rotl32 f (nth i shifts 0)), b, c).

Fixpoint chunks (size count : nat) (l : list Z) : list (list Z) :=
  match count with
  | O => []
  | S count' => firstn size l :: chunks size count' (skipn size l)
  end.

Definition le_word (bytes : list Z) : Z :=
  fold_right (fun b acc => b + 256 * acc) 0 bytes.

Definition block (st : state) (bytes : list Z) : state :=
  let M := map le_word (chunks 4 16 bytes) in
  let '(a0, b0, c0, d0) := st in
  let '(a, b, c, d) := fold_left (round M) (seq 0 64) st in
  (w32 (a0 + a), w32 (b0 + b), w32 (c0 + c), w32 (d0 + d)).

Fixpoint le_bytes (n : nat) (x : Z) : list Z :=
  match n with
  | O => []
  | S n' => x mod 256 :: le_bytes n' (x / 256)
  end.

(** A [0x80] byte, zeros up to 56 modulo 64, then the bit length on 8
    little-endian bytes. *)
Definition pad (msg : list Z) : list Z :=
  let len := Z.of_nat (List.length msg) in
  msg ++ [128] ++ repeat 0 (Z.to_nat ((55 - len) mod 64))
      ++ le_bytes 8 ((8 * len) mod 18446744073709551616).

Definition init : state := (0x67452301, 0xefcdab89, 0x98badcfe, 0x10325476).

Definition digest (msg : list Z) : state :=
  let p := pad msg in
  fold_left block (chunks 64 (List.length p / 64) p) init.

(** Lower-case hexadecimal output, two digits per byte, the four state words
    little-endian. *)
Definition hexdigit (n : Z) : ascii :=
  nth (Z.to_nat n) (list_ascii_of_string "0123456789abcdef") "0"%char.

Definition hex_byte (b : Z) (rest : string) : string :=
  String (hexdigit (b / 16)) (String (hexdigit (b mod 16)) rest).

Definition hex_word (w : Z) (rest : string) : string :=
  hex_byte (w mod 256)
    (hex_byte (w / 256 mod 256)
       (hex_byte (w / 65536 mod 256)
          (hex_byte (w / 16777216 mod 256) rest))).

Definition bytes_of_string (s : string) : list Z :=
  map (fun c => Z.of_N (N_of_ascii c)) (list_ascii_of_string s).

Definition hexdigest (msg : string) : string :=
  let '(a, b, c, d) := digest (bytes_of_string msg) in
  hex_word a (hex_word b (hex_word c (hex_word d ""))).

End MD5.

(** [str(n)] for an [int]. *)
Definition str_int (n : Z) : string := NilZero.string_of_int (Z.to_int n).

(** [s[:n]] *)
Fixpoint slice_to (n : nat) (s : string) : string :=
  match n, s with
  | S n', String c s' => String c (slice_to n' s')
  | _, _ => EmptyString
  end.

(** [sep.join(parts)] *)
Fixpoint join (sep : string) (parts : list string) : string :=
  match parts with
  | [] => ""
  | [p] => p
  | p :: rest => p ++ sep ++ join sep rest
  end.


(* ===================================================================== *)
(** ** The ReportLab canvas and [convert_pdf] *)
(* ===================================================================== *)

(** The drawing operations [convert_pdf] issues, as the canvas records
    them; the saved document is this sequence. *)
Inductive pdf_op : Type :=
| SetTitle (title : string)
| SetFont (font : string) (size : Z)
| DrawString (x y : Z) (text : string)
| Line (x1 y1 x2 y2 : Z)
| ShowPage.

(** [io.BytesIO]: what was written, and the stream position. One recorded
    operation counts as one unit of length. *)
Record BytesIO : Type := mk_bytesio {
  getvalue : list pdf_op;
  tell : nat
}.

(** [buffer.write(doc)] on a buffer positioned at its end. *)
Definition bytesio_write (doc : list pdf_op) (b : BytesIO) : BytesIO :=
  {| getvalue := getvalue b ++ doc; tell := (tell b + List.length doc)%nat |}.

(** [buffer.seek(pos)] *)
Definition bytesio_seek (pos : nat) (b : BytesIO) : BytesIO :=
  {| getvalue := getvalue b; tell := pos |}.

(** What the renderer reads from outside the program: which font files can
    be loaded, the fonts already in ReportLab's process-wide registry, and
    the year of [timezone.now()]. *)
Record environ : Type := mk_environ {
  font_files : string -> bool;
  registered_fonts : list string;
  now_year : Z
}.

(** The fonts every canvas knows without registration. *)
Definition standard_fonts : list string :=
  ["Courier"; "Courier-Bold"; "Courier-Oblique"; "Courier-BoldOblique";
   "Helvetica"; "Helvetica-Bold"; "Helvetica-Oblique"; "Helvetica-BoldOblique";
   "Times-Roman"; "Times-Bold"; "Times-Italic"; "Times-BoldItalic";
   "Symbol"; "ZapfDingbats"].

(** The state [convert_pdf] works on: the font registry, the operations
    recorded by the canvas [p], and the [buffer] the canvas saves into. *)
Record canvas : Type := mk_canvas {
  registry : list string;
  code : list pdf_op;
  buffer : BytesIO
}.

(** State and exception monad of the renderer. *)
Definition Render (A : Type) : Type := canvas -> result (A * canvas).

Definition ret {A : Type} (a : A) : Render A := fun c => Ok (a, c).

Definition bind {A B : Type} (m : Render A) (k : A -> Render B) : Render B :=
  fun c =>
    match m c with
    | Ok (a, c') => k a c'
    | Raise e => Raise e
    end.

Definition raise {A : Type} (e : exn) : Render A := fun _ => Raise e.

Declare Scope render_scope.
Delimit Scope render_scope with render.
Notation "x <- m ;; k" := (bind m (fun x => k))
  (at level 61, m at next level, right associativity) : render_scope.
Notation "m ;; k" := (bind m (fun _ => k))
  (at level 61, right associativity) : render_scope.

Definition emit (op : pdf_op) : Render unit :=
  fun c => Ok (tt, {| registry := registry c; code := code c ++ [op];
                      buffer := buffer c |}).

(** [p.setTitle(title)] *)
Definition setTitle (title : string) : Render unit := emit (SetTitle title).

(** [pdfmetrics.registerFont(TTFont(font, path))]: opening the file fails
    with [TTFError] when it cannot be read. *)
Definition registerFont (env : environ) (font path : string) : Render unit :=
  fun c =>
    if font_files env path then
      Ok (tt, {| registry := font :: registry c; code := code c;
                 buffer := buffer c |})
    else Raise (TTFError path).

Definition mem_string (s : string) (l : list string) : bool :=
  existsb (String.eqb s) l.

(** [p.setFont(font, size)]: the font must be a standard or a registered
    one. *)
Definition setFont (font : string) (size : Z) : Render unit :=
  fun c =>
    if mem_string font (registry c) || mem_string font standard_fonts then
      emit (SetFont font size) c
    else Raise (KeyError font).

(** [p.drawString(x, y, text)]; no bound is placed on the coordinates. *)
Definition drawString (x y : Z) (text : string) : Render unit :=
  emit (DrawString x y text).

(** [p.line(x1, y1, x2, y2)] *)
Definition line (x1 y1 x2 y2 : Z) : Render unit := emit (Line x1 y1 x2 y2).

(** [p.showPage()] *)
Definition showPage : Render unit := emit ShowPage.

(** [p.save()]: the document goes into the buffer. *)
Definition save : Render unit :=
  fun c => Ok (tt, {| registry := registry c; code := code c;
                      buffer := bytesio_write (code c) (buffer c) |}).

(** [buffer.seek(0)] *)
Definition seek (pos : nat) : Render unit :=
  fun c => Ok (tt, {| registry := registry c; code := code c;
                      buffer := bytesio_seek pos (buffer c) |}).

(** A Python value as [download_shopping_cart] tests it. *)
Inductive pyobj : Type :=
| PyNone
| PyBytesIO (b : BytesIO).

(** [bool(o)]: [None] is false; a [BytesIO] defines neither [__bool__] nor
    [__len__], so it is true. *)
Definition truth (o : pyobj) : bool :=
  match o with
  | PyNone => false
  | PyBytesIO _ => true
  end.

(** [f'{i}. {name} - {info["amount"]} {info["measurement_unit"]}'] *)
Definition body_line (i : Z) (name : string) (inf : info) : string :=
  str_int i ++ ". " ++ name ++ " - " ++ str_int (amount inf) ++ " "
    ++ measurement_unit inf.

(** [for i, (name, info) in enumerate(data.items(), 1)]: draws one line per
    entry and returns the final [height]. *)
Fixpoint draw_body (entries : list (string * info)) (i height : Z) : Render Z :=
  match entries with
  | [] => ret height
  | (name, inf) :: rest =>
      (drawString 75 height (body_line i name inf) ;;
       draw_body rest (i + 1) (height - 30))%render
  end.

(** [f"Спасибо, что используете Foodgram Project © {current_year}"] *)
Definition signature_line (current_year : Z) : string :=
  "Спасибо, что используете Foodgram Project © " ++ str_int current_year.

(** The statements of [convert_pdf] on the canvas, returning [buffer]. *)
Definition convert_pdf_body (env : environ) (data : ingredient_dict)
  (title font : string) (font_size : Z) : Render pyobj :=
  (setTitle title ;;
   registerFont env font ("./fonts/" ++ font ++ ".ttf") ;;
   setFont font font_size ;;
   let height := 800 in
   drawString 50 height (title ++ ":") ;;
   let height := height - 30 in
   setFont font font_size ;;
   height <- draw_body (PyDict.items data) 1 height ;;
   let current_year := now_year env in
   let signature := signature_line current_year in
   line 50 height 550 height ;;
   let height := height - 10 in
   setFont font (font_size - 4) ;;
   drawString 50 height signature ;;
   showPage ;;
   save ;;
   seek 0 ;;
   fun c => Ok (PyBytesIO (buffer c), c))%render.

(** [buffer = io.BytesIO()] and [p = canvas.Canvas(buffer, pagesize=A4)]. *)
Definition new_canvas (env : environ) : canvas :=
  {| registry := registered_fonts env; code := [];
     buffer := {| getvalue := []; tell := 0 |} |}.

(** [convert_pdf(data, title, font, font_size)] *)
Definition convert_pdf (env : environ) (data : ingredient_dict)
  (title font : string) (font_size : Z) : result pyobj :=
  match convert_pdf_body env data title font font_size (new_canvas env) with
  | Ok (buf, _) => Ok buf
  | Raise e => Raise e
  end.


(* ===================================================================== *)
(** ** Responses and the actions of [RecipeViewSet] *)
(* ===================================================================== *)

Definition HTTP_201_CREATED : Z := 201.
Definition HTTP_204_NO_CONTENT : Z := 204.
Definition HTTP_400_BAD_REQUEST : Z := 400.
Definition HTTP_500_INTERNAL_SERVER_ERROR : Z := 500.

(** The first argument of [Response]: nothing, a dictionary of strings, or
    [RecipeListSerializer(recipe).data] (the serializer is not modelled, the
    recipe's key stands for its data). *)
Inductive payload : Type :=
| NoData
| DictData (d : list (string * string))
| RecipeListData (recipe : Z).

Inductive response : Type :=
| Response (data : payload) (status : Z)
| FileResponse (stream : pyobj) (as_attachment : bool) (filename : string).

(** [response.status_code]; a [FileResponse] is built with the default. *)
Definition status_code (r : response) : Z :=
  match r with
  | Response _ status => status
  | FileResponse _ _ _ => 200
  end.

(** [request.method]: the list actions are routed for POST and DELETE, the
    download for GET. *)
Inductive http_method : Type := GET | POST | DELETE.

Record request : Type := mk_request {
  method : http_method;
  user : Z
}.

(** [post_list(model, user, pk)], on the store it reads and writes. *)
Definition post_list (model : list_model) (user pk : Z) (s : db)
  : result response * db :=
  if filter_exists model user pk s then
    (Ok (Response
           (DictData [("errors", "Рецепт уже добавлен в " ++ model_name model)])
           HTTP_400_BAD_REQUEST), s)
  else
    match get_object_or_404 pk s with
    | Raise e => (Raise e, s)
    | Ok recipe =>
        let s' := objects_create model user recipe s in
        (Ok (Response (RecipeListData recipe) HTTP_201_CREATED), s')
    end.

(** [delete_list(model, user, pk)] *)
Definition delete_list (model : list_model) (user pk : Z) (s : db)
  : result response * db :=
  if filter_exists model user pk s then
    (Ok (Response NoData HTTP_204_NO_CONTENT), filter_delete model user pk s)
  else
    (Ok (Response
           (DictData [("errors", "Рецепт не добавлен в " ++ model_name model)])
           HTTP_400_BAD_REQUEST), s).

(** [favorite(self, request, pk)] *)
Definition favorite (req : request) (pk : Z) (s : db) : result response * db :=
  if negb (recipe_exists pk s) then
    (* except Recipe.DoesNotExist *)
    (Ok (Response (DictData [("error", "Recipe not found")])
           HTTP_400_BAD_REQUEST), s)
  else
    match method req with
    | POST => post_list Favorite (user req) pk s
    | _ => delete_list Favorite (user req) pk s
    end.

(** [shopping_cart(self, request, pk)] *)
Definition shopping_cart (req : request) (pk : Z) (s : db)
  : result response * db :=
  match method req with
  | POST => post_list ShoppingCart (user req) pk s
  | _ => delete_list ShoppingCart (user req) pk s
  end.

Section Download.

(** [repr] of a [str], the quoting and escaping CPython applies. *)
Variable repr_str : string -> string.

(** [str] of the inner dictionary. *)
Definition str_info (inf : info) : string :=
  "{'measurement_unit': " ++ repr_str (measurement_unit inf)
    ++ ", 'amount': " ++ str_int (amount inf) ++ "}".

(** [str(ingredient_list)] *)
Definition str_dict (ingredient_list : ingredient_dict) : string :=
  "{" ++ join ", "
           (map (fun kv => repr_str (fst kv) ++ ": " ++ str_info (snd kv))
                (PyDict.items ingredient_list))
      ++ "}".

(** Lines 187-190: the name of the download. *)
Definition shopping_list_filename (ingredient_list : ingredient_dict) : string :=
  let ingredient_list_str := str_dict ingredient_list in
  let hash_suffix := slice_to 5 (MD5.hexdigest ingredient_list_str) in
  "shopping_list_" ++ hash_suffix ++ ".pdf".

(** [download_shopping_cart(self, request)] *)
Definition download_shopping_cart (env : environ) (req : request) (s : db)
  : result response :=
  let ingredient_list := aggregate (cart_line_items (user req) s) in
  match convert_pdf env ingredient_list "Список покупок" "Arial" 12 with
  | Raise e => Raise e
  | Ok pdf_buffer =>
      if truth pdf_buffer then
        let filename := shopping_list_filename ingredient_list in
        Ok (FileResponse pdf_buffer true filename)
      else
        Ok (Response NoData HTTP_500_INTERNAL_SERVER_ERROR)
  end.

End Download.


(* ===================================================================== *)
(** ** The other methods of the view sets *)
(* ===================================================================== *)

(** The serializer classes [get_serializer_class] chooses between. *)
Inductive serializer_class : Type := FavoriteSerializer | RecipeCreateSerializer.

(** [RecipeViewSet.get_serializer_class]; [self.action] is the name of the
    running action, or [None]. *)
Definition get_serializer_class (action : option string) : serializer_class :=
  match action with
  | Some a =>
      if String.eqb a "favorite" || String.eqb a "cart"
      then FavoriteSerializer
      else RecipeCreateSerializer
  | None => RecipeCreateSerializer
  end.

(** The actions of [RecipeViewSet]: those of a [ModelViewSet] and the three
    methods decorated with [@action]. *)
Definition recipe_viewset_actions : list string :=
  ["list"; "create"; "retrieve"; "update"; "partial_update"; "destroy";
   "favorite"; "shopping_cart"; "download_shopping_cart"].

(** The query parameters [get_queryset] reads: [getlist('tags', [])],
    [GET.get('is_favorited')] and [GET.get('is_in_shopping_cart')]. *)
Record query_params : Type := mk_query_params {
  qp_tags : list string;
  qp_is_favorited : option string;
  qp_is_in_shopping_cart : option string
}.

(** [bool(v)] for the result of [GET.get]: [None] and the empty string are
    false, every other string is true. *)
Definition truth_param (v : option string) : bool :=
  match v with
  | None => false
  | Some s => negb (String.eqb s "")
  end.

(** The recipe-tag associations joined with the tag's slug: a recipe key
    and a slug per row. *)
Definition tag_table : Type := list (Z * string).

(** [queryset.filter(tags__slug__in=tags)]: the join with the tag rows, one
    row per recipe and matching tag. *)
Definition filter_tags_slug_in (tt : tag_table) (tags : list string)
  (queryset : list Z) : list Z :=
  flat_map
    (fun pk =>
       map (fun _ => pk)
           (filter (fun rt => (fst rt =? pk) && mem_string (snd rt) tags) tt))
    queryset.

(** [.distinct()]: every row once, at its first place. *)
Fixpoint distinct (l : list Z) : list Z :=
  match l with
  | [] => []
  | x :: r => x :: filter (fun y => negb (y =? x)) (distinct r)
  end.

(** [model.objects.filter(user=author).values('recipe_id')] *)
Definition recipe_ids_of (model : list_model) (author : Z) (s : db) : list Z :=
  map row_recipe (filter (fun r => row_user r =? author) (objects model s)).

(** [queryset.filter(pk__in=ids)] *)
Definition filter_pk_in (ids : list Z) (queryset : list Z) : list Z :=
  filter (fun pk => existsb (Z.eqb pk) ids) queryset.

(** [RecipeViewSet.get_queryset], as the list of the recipes' keys. *)
Definition get_queryset (tt : tag_table) (author : Z) (qp : query_params)
  (s : db) : list Z :=
  let queryset := recipe_table s in
  let tags := qp_tags qp in
  let queryset :=
    match tags with
    | [] => queryset
    | _ :: _ => distinct (filter_tags_slug_in tt tags queryset)
    end in
  if truth_param (qp_is_favorited qp) then
    let favorite_recipes_ids := recipe_ids_of Favorite author s in
    filter_pk_in favorite_recipes_ids queryset
  else if truth_param (qp_is_in_shopping_cart qp) then
    let cart_recipes_ids := recipe_ids_of ShoppingCart author s in
    filter_pk_in cart_recipes_ids queryset
  else queryset.

Definition HTTP_405_METHOD_NOT_ALLOWED : Z := 405.

Section IngredientViewSet.

(** [super().finalize_response], the framework's part. *)
Variable super_finalize_response : response -> response.

(** [IngredientViewSet.finalize_response]; [request.method] is a string. *)
Definition finalize_response (request_method : string) (resp : response)
  : response :=
  let resp :=
    if negb (status_code resp =? HTTP_405_METHOD_NOT_ALLOWED)
       && negb (mem_string request_method ["GET"])
    then Response (DictData [("detail", "Method Not Allowed.")])
           HTTP_405_METHOD_NOT_ALLOWED
    else resp in
  super_finalize_response resp.

End IngredientViewSet.


(* ===================================================================== *)
(** ** Specification-side definitions *)
(* ===================================================================== *)

(** The names of a sequence of rows. *)
Definition names (rows : list line_item) : list string := map item0 rows.

(** The distinct elements of a list, each at the place of its first
    occurrence. *)
Fixpoint first_seen (l : list string) : list string :=
  match l with
  | [] => []
  | x :: r => x :: filter (fun y => negb (String.eqb y x)) (first_seen r)
  end.

(** The rows that name [name]. *)
Definition rows_named (name : string) (rows : list line_item) : list line_item :=
  filter (fun it => String.eqb (item0 it) name) rows.

(** The sum of their amounts. *)
Definition total_amount (name : string) (rows : list line_item) : Z :=
  fold_right Z.add 0 (map item2 (rows_named name rows)).

(** The unit of the first of them. *)
Definition first_unit (name : string) (rows : list line_item) : string :=
  match rows_named name rows with
  | [] => ""
  | it :: _ => item1 it
  end.

(** The entry a row starts when its name is new. *)
Definition new_entry (item : line_item) : info :=
  {| measurement_unit := item1 item; amount := item2 item |}.

(** The entry the aggregation is expected to hold under [name]. *)
Definition expected_info (name : string) (rows : list line_item) : info :=
  {| measurement_unit := first_unit name rows;
     amount := total_amount name rows |}.

(** The aggregation loop with a ghost field: every entry also records the
    positions (from 0) of the rows that went into it. *)
Definition traced_dict : Type := PyDict.t (info * list nat).

Definition trace_add (x : Z) (i : nat) (v : info * list nat) : info * list nat :=
  (iadd_amount x (fst v), (snd v ++ [i])%list).

Definition aggregate_step_traced (d : traced_dict) (ix : nat * line_item)
  : traced_dict :=
  let name := item0 (snd ix) in
  if negb (PyDict.contains name d) then
    PyDict.setitem name
      ({| measurement_unit := item1 (snd ix); amount := item2 (snd ix) |},
       [fst ix])
      d
  else
    PyDict.update name (trace_add (item2 (snd ix)) (fst ix)) d.

Definition enumerate (rows : list line_item) : list (nat * line_item) :=
  combine (seq 0 (List.length rows)) rows.

Definition aggregate_traced (rows : list line_item) : traced_dict :=
  fold_left aggregate_step_traced (enumerate rows) (PyDict.empty (info * list nat)).

(** Dropping the ghost field. *)
Definition erase (d : traced_dict) : ingredient_dict :=
  PyDict.map_values fst d.

(** The rows at positions [i] and [j] were summed into one entry. *)
Definition summed_together (rows : list line_item) (i j : nat) : bool :=
  existsb (fun kv => existsb (Nat.eqb i) (snd (snd kv))
                     && existsb (Nat.eqb j) (snd (snd kv)))
          (aggregate_traced rows).

(** The positions of the rows that name [name]. *)
Definition positions (name : string) (rows : list line_item) : list nat :=
  map fst (filter (fun ix => String.eqb (item0 (snd ix)) name) (enumerate rows)).

(** The shape [shopping_list_{5-hex-chars}.pdf]. *)
Definition is_hex (c : ascii) : bool :=
  existsb (Ascii.eqb c) (list_ascii_of_string "0123456789abcdef").

Definition filename_shape (f : string) : bool :=
  String.eqb (substring 0 14 f) "shopping_list_"
  && forallb is_hex (list_ascii_of_string (substring 14 5 f))
  && (String.length (substring 14 5 f) =? 5)%nat
  && String.eqb (substring 19 (String.length f - 19) f) ".pdf".

(** The operations the body loop records when it starts at index [i] and
    vertical position [height]. *)
Fixpoint body_ops (entries : list (string * info)) (i height : Z) : list pdf_op :=
  match entries with
  | [] => []
  | (name, inf) :: rest =>
      DrawString 75 height (body_line i name inf)
        :: body_ops rest (i + 1) (height - 30)
  end.

(** The rule and the signature drawn below vertical position [height]. *)
Definition footer_ops (env : environ) (font : string) (font_size height : Z)
  : list pdf_op :=
  [Line 50 height 550 height;
   SetFont font (font_size - 4);
   DrawString 50 (height - 10) (signature_line (now_year env));
   ShowPage].

(** The title block: document title, body font, title line, body font. *)
Definition header_ops (title font : string) (font_size : Z) : list pdf_op :=
  [SetTitle title;
   SetFont font font_size;
   DrawString 50 800 (title ++ ":");
   SetFont font font_size].

(** The whole document for [data]. *)
Definition document (env : environ) (data : ingredient_dict)
  (title font : string) (font_size : Z) : list pdf_op :=
  (header_ops title font font_size
   ++ body_ops (PyDict.items data) 1 770
   ++ footer_ops env font font_size
        (770 - 30 * Z.of_nat (List.length data)))%list.

(** The path the font is loaded from. *)
Definition font_path (font : string) : string := "./fonts/" ++ font ++ ".ttf".

(** A request or an action is rejected: a 400 response carrying one message,
    and the store as it was. *)
Definition rejected (out : result response * db) (s : db) : Prop :=
  snd out = s /\
  exists key msg,
    fst out = Ok (Response (DictData [(key, msg)]) HTTP_400_BAD_REQUEST).

(** Referential integrity of the list tables: every favorite and every cart
    entry points to a recipe of the recipe table. *)
Definition references_valid (s : db) : bool :=
  forallb (fun r => recipe_exists (row_recipe r) s) (favorite_table s)
  && forallb (fun r => recipe_exists (row_recipe r) s) (shopping_cart_table s).

(** The user has no entry in the shopping cart. *)
Definition cart_empty (user : Z) (s : db) : bool :=
  negb (existsb (fun c => row_user c =? user) (shopping_cart_table s)).

(** Sample data for the instances below: an installation with the Arial
    font file, one without any font file, and a store where user 1 has the
    spec's recipes A (key 10) and B (key 11) in the cart, recipe 10 among
    the favorites, and user 2 has nothing. *)
Definition sample_environ : environ :=
  {| font_files := fun path => String.eqb path "./fonts/Arial.ttf";
     registered_fonts := [];
     now_year := 2024 |}.

Definition fontless_environ : environ :=
  {| font_files := fun _ => false;
     registered_fonts := [];
     now_year := 2024 |}.

Definition sample_db : db :=
  {| recipe_table := [10; 11];
     recipe_ingredient_table :=
       [mk_ri 10 "flour" "g" 200; mk_ri 10 "eggs" "pcs" 3;
        mk_ri 11 "flour" "g" 300; mk_ri 11 "eggs" "pcs" 1];
     favorite_table := [mk_row 1 10];
     shopping_cart_table := [mk_row 1 10; mk_row 1 11] |}.

(** [repr] on the strings that need no escaping: single quotes around the
    text. *)
Definition repr_plain (s : string) : string := "'" ++ s ++ "'".

(** What a loop "insert [init x] under [key x] if the key is new, else
    apply [upd x] to the stored value" leaves under [n] after the elements
    [xs]: nothing if none has key [n], else the first one's [init] followed
    by the updates of the later ones. *)
Section Accumulated.
Variables (X V : Type).
Variables (key : X -> string) (init : X -> V) (upd : X -> V -> V).

Definition keyed (n : string) (xs : list X) : list X :=
  filter (fun x => String.eqb (key x) n) xs.

Definition accumulated (n : string) (xs : list X) : option V :=
  match keyed n xs with
  | [] => None
  | x :: r => Some (fold_left (fun v y => upd y v) r (init x))
  end.

End Accumulated.

(** The amount the mapping shows for [name], 0 when it has no such entry. *)
Definition aggregated_amount (name : string) (d : ingredient_dict) : Z :=
  match PyDict.get name d with
  | Some inf => amount inf
  | None => 0
  end.

(** The entries of a mapping read back as rows. *)
Definition dict_rows (d : ingredient_dict) : list line_item :=
  map (fun kv => (fst kv, measurement_unit (snd kv), amount (snd kv))) d.

(** The row [values_list] gives for an association, and the cart rows of
    user [u] it is joined with. *)
Definition ri_item (ri : recipe_ingredient) : line_item :=
  (ri_name ri, ri_measurement_unit ri, ri_amount ri).

Definition cart_rows_for (u : Z) (ri : recipe_ingredient) (cart : list list_row)
  : list list_row :=
  filter (fun c => (row_recipe c =? ri_recipe ri) && (row_user c =? u)) cart.

(** The line-items of one recipe. *)
Definition recipe_line_items (pk : Z) (s : db) : list line_item :=
  map ri_item (filter (fun ri => ri_recipe ri =? pk) (recipe_ingredient_table s)).

(** The vertical positions an operation draws at, and whether a document
    stays at or above the bottom edge of the page (position 0). *)
Definition op_heights (op : pdf_op) : list Z :=
  match op with
  | DrawString _ y _ => [y]
  | Line _ y1 _ y2 => [y1; y2]
  | _ => []
  end.

Definition above_bottom (doc : list pdf_op) : bool :=
  forallb (fun op => forallb (fun y => 0 <=? y) (op_heights op)) doc.

(** The operation that ends a page. *)
Definition is_show_page (op : pdf_op) : bool :=
  match op with
  | ShowPage => true
  | _ => false
  end.

(** A recipe has a tag among [tags]. *)
Definition tagged (tt : tag_table) (tags : list string) (pk : Z) : bool :=
  existsb (fun rt => (fst rt =? pk) && mem_string (snd rt) tags) tt.

(** Tags for the sample store: recipe 10 is a breakfast and a dinner,
    recipe 11 a dinner. *)
Definition sample_tags : tag_table :=
  [(10, "breakfast"); (10, "dinner"); (11, "dinner")].

(** The rows of a list table are pairwise different. *)
Definition rows_unique (model : list_model) (s : db) : Prop :=
  NoDup (map (fun r => (row_user r, row_recipe r)) (objects model s)).

(** The other list model. *)
Definition other_model (model : list_model) : list_model :=
  match model with
  | Favorite => ShoppingCart
  | ShoppingCart => Favorite
  end.


(* ===================================================================== *)
(** * Properties *)
(* ===================================================================== *)

Local Open Scope list_scope.

(** ** Dictionaries *)

Module PyDictFacts.
Import PyDict.

Section Facts.
Variable V : Type.
Implicit Types (d : PyDict.t V) (k : string) (v : V).

Lemma contains_keys d k : contains k d = true <-> In k (keys d).
Proof.
  induction d as [|[k' v'] d IH]; simpl.
  - split; [discriminate | tauto].
  - destruct (String.eqb_spec k k') as [->|Hne].
    + split; auto.
    + rewrite IH. split; [auto | intros [H|H]; [congruence | exact H]].
Qed.

Lemma contains_false_keys d k : contains k d = false <-> ~ In k (keys d).
Proof.
  rewrite <- contains_keys. destruct (contains k d); split; congruence.
Qed.

Lemma keys_setitem_new d k v :
  contains k d = false -> keys (setitem k v d) = keys d ++ [k].
Proof.
  induction d as [|[k' v'] d IH]; simpl; intros H.
  - reflexivity.
  - destruct (String.eqb k k'); [discriminate|].
    simpl. now rewrite IH.
Qed.

Lemma keys_update d k f : keys (update k f d) = keys d.
Proof.
  induction d as [|[k' v'] d IH]; simpl.
  - reflexivity.
  - destruct (String.eqb k k'); simpl; [reflexivity | now rewrite IH].
Qed.

Lemma get_setitem_same d k v : get k (setitem k v d) = Some v.
Proof.
  induction d as [|[k' v'] d IH]; simpl.
  - now rewrite String.eqb_refl.
  - destruct (String.eqb k k') eqn:E; simpl; rewrite E; auto.
Qed.

Lemma get_setitem_other d k k' v :
  k' <> k -> get k' (setitem k v d) = get k' d.
Proof.
  intros Hne. induction d as [|[k0 v0] d IH]; simpl.
  - apply String.eqb_neq in Hne. now rewrite Hne.
  - destruct (String.eqb_spec k k0) as [->|Hk]; simpl.
    + apply String.eqb_neq in Hne. now rewrite Hne.
    + now rewrite IH.
Qed.

Lemma get_update_same d k f : get k (update k f d) = option_map f (get k d).
Proof.
  induction d as [|[k' v'] d IH]; simpl.
  - reflexivity.
  - destruct (String.eqb k k') eqn:E; simpl; rewrite E; auto.
Qed.

Lemma get_update_other d k k' f :
  k' <> k -> get k' (update k f d) = get k' d.
Proof.
  intros Hne. induction d as [|[k0 v0] d IH]; simpl.
  - reflexivity.
  - destruct (String.eqb_spec k k0) as [->|Hk]; simpl.
    + apply String.eqb_neq in Hne. now rewrite Hne.
    + now rewrite IH.
Qed.

Lemma get_In d k v : get k d = Some v -> In (k, v) d.
Proof.
  induction d as [|[k' v'] d IH]; simpl; [discriminate|].
  destruct (String.eqb_spec k k') as [->|Hne].
  - intros [= ->]. now left.
  - auto.
Qed.

Lemma In_get d k v : NoDup (keys d) -> In (k, v) d -> get k d = Some v.
Proof.
  induction d as [|[k' v'] d IH]; simpl; [tauto|].
  intros Hnd [H|H].
  - injection H as -> ->. now rewrite String.eqb_refl.
  - inversion Hnd as [|? ? Hnotin Hnd']; subst.
    destruct (String.eqb_spec k k') as [->|Hne].
    + exfalso. apply Hnotin. change (In (fst (k', v)) (map fst d)).
      now apply in_map.
    + auto.
Qed.

Lemma get_None_keys d k : get k d = None <-> ~ In k (keys d).
Proof.
  induction d as [|[k' v'] d IH]; simpl.
  - tauto.
  - destruct (String.eqb_spec k k') as [->|Hne].
    + split; [discriminate | intros H; exfalso; auto].
    + rewrite IH. split; [intros H [E|E]; [congruence | auto] | auto].
Qed.

End Facts.

Section MapValues.
Variables (V W : Type) (g : V -> W).

Lemma contains_map_values k (d : PyDict.t V) :
  contains k (map_values g d) = contains k d.
Proof.
  induction d as [|[k' v'] d IH]; simpl; [reflexivity|].
  now rewrite IH.
Qed.

Lemma setitem_map_values k v (d : PyDict.t V) :
  map_values g (setitem k v d) = setitem k (g v) (map_values g d).
Proof.
  induction d as [|[k' v'] d IH]; simpl; [reflexivity|].
  destruct (String.eqb k k'); simpl; [reflexivity | now rewrite IH].
Qed.

Lemma update_map_values k (f : V -> V) (f' : W -> W) (d : PyDict.t V) :
  (forall v, g (f v) = f' (g v)) ->
  map_values g (update k f d) = update k f' (map_values g d).
Proof.
  intros Hf. induction d as [|[k' v'] d IH]; simpl; [reflexivity|].
  destruct (String.eqb k k'); simpl; [now rewrite Hf | now rewrite IH].
Qed.

End MapValues.

End PyDictFacts.

(** ** First occurrences *)

Lemma mem_string_In s l : mem_string s l = true <-> In s l.
Proof.
  unfold mem_string. rewrite existsb_exists. split.
  - intros (x & Hx & E). apply String.eqb_eq in E. now subst.
  - intros H. exists s. split; [exact H | apply String.eqb_refl].
Qed.

Lemma first_seen_In x l : In x (first_seen l) <-> In x l.
Proof.
  induction l as [|a l IH]; simpl; [tauto|].
  rewrite filter_In, IH, negb_true_iff, String.eqb_neq.
  destruct (string_dec a x) as [->|Hne]; [tauto|].
  split; [tauto|]. intros [H|H]; [tauto|]. right. split; [exact H|congruence].
Qed.

Lemma first_seen_NoDup l : NoDup (first_seen l).
Proof.
  induction l as [|a l IH]; simpl; constructor.
  - rewrite filter_In, String.eqb_refl. simpl. intros [_ H]. discriminate.
  - now apply NoDup_filter.
Qed.

Lemma first_seen_snoc l x :
  first_seen (l ++ [x]) =
  if mem_string x l then first_seen l else first_seen l ++ [x].
Proof.
  induction l as [|a l IH]; simpl; [reflexivity|].
  rewrite IH. destruct (String.eqb_spec x a) as [->|Hne]; simpl.
  - destruct (mem_string a l); [reflexivity|].
    rewrite filter_app. simpl. rewrite String.eqb_refl. simpl.
    now rewrite app_nil_r.
  - destruct (mem_string x l); [reflexivity|].
    rewrite filter_app. simpl.
    apply String.eqb_neq in Hne. now rewrite Hne.
Qed.

(** ** The insert-or-update loop *)

Section AccumulateLoop.
Variables (X V : Type).
Variables (key : X -> string) (init : X -> V) (upd : X -> V -> V).
Variable step : PyDict.t V -> X -> PyDict.t V.
Hypothesis step_eq : forall d x,
  step d x =
  if negb (PyDict.contains (key x) d)
  then PyDict.setitem (key x) (init x) d
  else PyDict.update (key x) (upd x) d.

Lemma keyed_snoc n xs x :
  keyed key n (xs ++ [x]) =
  if String.eqb (key x) n then keyed key n xs ++ [x] else keyed key n xs.
Proof.
  unfold keyed. rewrite filter_app. simpl.
  destruct (String.eqb (key x) n); [reflexivity | apply app_nil_r].
Qed.

Lemma accumulated_snoc n xs x :
  accumulated key init upd n (xs ++ [x]) =
  if String.eqb (key x) n then
    match accumulated key init upd n xs with
    | None => Some (init x)
    | Some v => Some (upd x v)
    end
  else accumulated key init upd n xs.
Proof.
  unfold accumulated. rewrite keyed_snoc.
  destruct (String.eqb (key x) n); [|reflexivity].
  destruct (keyed key n xs) as [|y r]; simpl; [reflexivity|].
  now rewrite fold_left_app.
Qed.

Lemma accumulated_None n xs :
  accumulated key init upd n xs = None <-> ~ In n (map key xs).
Proof.
  unfold accumulated, keyed. induction xs as [|x xs IH]; simpl; [tauto|].
  destruct (String.eqb_spec (key x) n) as [E|E].
  - split; [discriminate | intros H; exfalso; auto].
  - rewrite IH. tauto.
Qed.

(** The loop leaves the keys in order of first occurrence, and under each
    key the accumulated value. *)
Lemma fold_accumulate xs :
  PyDict.keys (fold_left step xs (PyDict.empty V)) = first_seen (map key xs) /\
  forall n, PyDict.get n (fold_left step xs (PyDict.empty V))
            = accumulated key init upd n xs.
Proof.
  induction xs as [|x xs [IHk IHg]] using rev_ind; [split; reflexivity|].
  rewrite fold_left_app. simpl. set (d := fold_left step xs (PyDict.empty V)) in *.
  rewrite step_eq, map_app. simpl map. rewrite first_seen_snoc.
  assert (Hmem : mem_string (key x) (map key xs) = PyDict.contains (key x) d).
  { destruct (PyDict.contains (key x) d) eqn:E.
    - apply mem_string_In. apply PyDictFacts.contains_keys in E.
      rewrite IHk, first_seen_In in E. exact E.
    - apply PyDictFacts.contains_false_keys in E.
      rewrite IHk, first_seen_In, <- mem_string_In in E.
      now destruct (mem_string (key x) (map key xs)). }
  rewrite Hmem. destruct (PyDict.contains (key x) d) eqn:E; simpl.
  - split; [now rewrite PyDictFacts.keys_update|].
    intros n. rewrite accumulated_snoc.
    destruct (String.eqb_spec (key x) n) as [<-|Hne].
    + rewrite PyDictFacts.get_update_same, IHg.
      destruct (accumulated key init upd (key x) xs) eqn:A; [reflexivity|].
      apply accumulated_None in A. apply mem_string_In in Hmem. contradiction.
    + rewrite PyDictFacts.get_update_other by congruence. apply IHg.
  - split; [rewrite PyDictFacts.keys_setitem_new by exact E; now rewrite IHk|].
    intros n. rewrite accumulated_snoc.
    destruct (String.eqb_spec (key x) n) as [<-|Hne].
    + rewrite PyDictFacts.get_setitem_same.
      destruct (accumulated key init upd (key x) xs) eqn:A; [|reflexivity].
      assert (H : ~ In (key x) (map key xs)).
      { rewrite <- mem_string_In, Hmem. discriminate. }
      apply accumulated_None in H. congruence.
    + rewrite PyDictFacts.get_setitem_other by congruence. apply IHg.
Qed.

End AccumulateLoop.

(** ** The aggregated mapping (lines 165-179) *)

(** The spec's example: recipe A needs 200 g flour and 3 eggs, recipe B
    300 g flour and 1 egg. *)
Example aggregate_flour_eggs :
  aggregate [("flour", "g", 200); ("eggs", "pcs", 3);
             ("flour", "g", 300); ("eggs", "pcs", 1)]
  = [("flour", mk_info "g" 500); ("eggs", mk_info "pcs" 4)].
Proof. reflexivity. Qed.

Lemma aggregate_accumulate rows :
  PyDict.keys (aggregate rows) = first_seen (names rows) /\
  forall n, PyDict.get n (aggregate rows)
            = accumulated item0 new_entry (fun it => iadd_amount (item2 it)) n rows.
Proof.
  apply (fold_accumulate item0 new_entry (fun it => iadd_amount (item2 it))
           aggregate_step).
  reflexivity.
Qed.

Lemma fold_iadd_amount r i :
  fold_left (fun v (y : line_item) => iadd_amount (item2 y) v) r i
  = {| measurement_unit := measurement_unit i;
       amount := amount i + fold_right Z.add 0 (map item2 r) |}.
Proof.
  revert i. induction r as [|y r IH]; intros i; simpl.
  - destruct i; simpl. now rewrite Z.add_0_r.
  - rewrite IH. simpl. now rewrite Z.add_assoc.
Qed.

Lemma accumulated_expected name rows :
  In name (names rows) ->
  accumulated item0 new_entry (fun it => iadd_amount (item2 it)) name rows
  = Some (expected_info name rows).
Proof.
  intros Hin.
  destruct (accumulated item0 new_entry (fun it => iadd_amount (item2 it)) name rows)
    as [v|] eqn:A.
  - revert A. unfold accumulated, expected_info, first_unit, total_amount,
      rows_named, keyed.
    destruct (filter (fun x => String.eqb (item0 x) name) rows) as [|y r];
      [discriminate|].
    intros [= <-]. now rewrite fold_iadd_amount.
  - apply accumulated_None in A. contradiction.
Qed.

(** C1. For every sequence of line-items (in particular the one
    [download_shopping_cart] retrieves for a user), the aggregated mapping
    has its keys in order of first occurrence, each once, and maps every
    name of the sequence to exactly the entry whose amount is the sum of the
    amounts of the line-items with that name and whose unit is that of the
    first of them. *)
Theorem aggregate_sums_by_name (rows : list line_item) :
  PyDict.keys (aggregate rows) = first_seen (names rows) /\
  NoDup (PyDict.keys (aggregate rows)) /\
  (forall name, In name (names rows) ->
     PyDict.get name (aggregate rows) = Some (expected_info name rows)) /\
  (forall name inf, In (name, inf) (aggregate rows) <->
     In name (names rows) /\ inf = expected_info name rows).
Proof.
  destruct (aggregate_accumulate rows) as [Hk Hg].
  assert (Hnd : NoDup (PyDict.keys (aggregate rows))).
  { rewrite Hk. apply first_seen_NoDup. }
  assert (Hget : forall name, In name (names rows) ->
            PyDict.get name (aggregate rows) = Some (expected_info name rows)).
  { intros name Hin. rewrite Hg. now apply accumulated_expected. }
  repeat split; auto.
  - rewrite <- (first_seen_In name (names rows)), <- Hk.
    change name with (fst (name, inf)). now apply in_map.
  - assert (Hin : In name (names rows)).
    { rewrite <- (first_seen_In name (names rows)), <- Hk.
      change name with (fst (name, inf)). now apply in_map. }
    apply (PyDictFacts.In_get _ _ _ Hnd) in H.
    rewrite (Hget _ Hin) in H. congruence.
  - intros [Hin ->]. apply PyDictFacts.get_In. now apply Hget.
Qed.

(** ** Which rows are summed together *)

Lemma erase_step d ix :
  erase (aggregate_step_traced d ix) = aggregate_step (erase d) (snd ix).
Proof.
  unfold aggregate_step_traced, aggregate_step, erase.
  rewrite PyDictFacts.contains_map_values.
  destruct (PyDict.contains (item0 (snd ix)) d); simpl.
  - now apply PyDictFacts.update_map_values.
  - now rewrite PyDictFacts.setitem_map_values.
Qed.

Lemma erase_fold rows : forall k d,
  erase (fold_left aggregate_step_traced (combine (seq k (List.length rows)) rows) d)
  = fold_left aggregate_step rows (erase d).
Proof.
  induction rows as [|it rows IH]; intros k d; simpl; [reflexivity|].
  now rewrite IH, erase_step.
Qed.

(** The traced loop computes the mapping of the view, plus the ghost field. *)
Lemma erase_aggregate_traced rows : erase (aggregate_traced rows) = aggregate rows.
Proof. apply erase_fold. Qed.

Lemma In_enumerate_from (rows : list line_item) : forall k i x,
  In (i, x) (combine (seq k (List.length rows)) rows) <->
  (k <= i)%nat /\ nth_error rows (i - k) = Some x.
Proof.
  induction rows as [|y rows IH]; intros k i x; simpl.
  - split; [tauto|]. intros [_ H]. now destruct (i - k)%nat.
  - rewrite IH. split.
    + intros [[= <- <-]|[Hle Hn]].
      * split; [lia|]. now rewrite Nat.sub_diag.
      * split; [lia|]. replace (i - k)%nat with (S (i - S k)) by lia. exact Hn.
    + intros [Hle Hn]. destruct (i - k)%nat as [|m] eqn:E.
      * left. injection Hn as ->. f_equal. lia.
      * right. split; [lia|]. replace (i - S k)%nat with m by lia. exact Hn.
Qed.

Lemma In_enumerate rows i x :
  In (i, x) (enumerate rows) <-> nth_error rows i = Some x.
Proof.
  unfold enumerate. rewrite In_enumerate_from, Nat.sub_0_r.
  split; [tauto | split; [lia | assumption]].
Qed.

Lemma In_positions name rows i :
  In i (positions name rows) <->
  exists it, nth_error rows i = Some it /\ item0 it = name.
Proof.
  unfold positions. rewrite in_map_iff. split.
  - intros ([i' it] & <- & H). apply filter_In in H. destruct H as [H E].
    simpl in *. exists it. split; [now apply In_enumerate | now apply String.eqb_eq].
  - intros (it & Hn & E). exists (i, it). split; [reflexivity|].
    apply filter_In. split; [now apply In_enumerate | now apply String.eqb_eq].
Qed.

Lemma fold_trace_add (r : list (nat * line_item)) : forall v,
  snd (fold_left (fun v ix => trace_add (item2 (snd ix)) (fst ix) v) r v)
  = snd v ++ map fst r.
Proof.
  induction r as [|y r IH]; intros v; simpl.
  - now rewrite app_nil_r.
  - rewrite IH. simpl. now rewrite <- app_assoc.
Qed.

Lemma aggregate_traced_accumulate rows :
  PyDict.keys (aggregate_traced rows)
  = first_seen (map (fun ix => item0 (snd ix)) (enumerate rows)) /\
  forall n, PyDict.get n (aggregate_traced rows)
            = accumulated (fun ix => item0 (snd ix))
                (fun ix => (new_entry (snd ix), [fst ix]))
                (fun ix => trace_add (item2 (snd ix)) (fst ix)) n (enumerate rows).
Proof.
  apply (fold_accumulate (fun ix : nat * line_item => item0 (snd ix))
           (fun ix => (new_entry (snd ix), [fst ix]))
           (fun ix => trace_add (item2 (snd ix)) (fst ix))
           aggregate_step_traced).
  reflexivity.
Qed.

(** The ghost field of the entry under [name] lists the positions of the
    rows that name [name]. *)
Lemma traced_positions rows name v ps :
  In (name, (v, ps)) (aggregate_traced rows) -> ps = positions name rows.
Proof.
  destruct (aggregate_traced_accumulate rows) as [Hk Hg]. intros Hin.
  apply PyDictFacts.In_get in Hin;
    [|rewrite Hk; apply first_seen_NoDup].
  rewrite Hg in Hin. revert Hin. unfold accumulated, positions, keyed.
  destruct (filter _ (enumerate rows)) as [|y r]; [discriminate|].
  intros [= E]. apply (f_equal snd) in E. simpl in E.
  rewrite fold_trace_add in E. simpl in E. now subst.
Qed.

Lemma traced_entry rows i it :
  nth_error rows i = Some it ->
  exists v, In (item0 it, (v, positions (item0 it) rows)) (aggregate_traced rows).
Proof.
  intros Hn. destruct (aggregate_traced_accumulate rows) as [Hk Hg].
  destruct (PyDict.get (item0 it) (aggregate_traced rows)) as [[v ps]|] eqn:G.
  - apply PyDictFacts.get_In in G. exists v.
    now rewrite <- (traced_positions _ _ _ _ G).
  - exfalso. apply PyDictFacts.get_None_keys in G. apply G.
    rewrite Hk, first_seen_In.
    change (item0 it) with ((fun ix : nat * line_item => item0 (snd ix)) (i, it)).
    apply in_map. now apply In_enumerate.
Qed.

Lemma existsb_eqb_In i l : existsb (Nat.eqb i) l = true <-> In i l.
Proof.
  rewrite existsb_exists. split.
  - intros (x & Hx & E). apply Nat.eqb_eq in E. now subst.
  - intros H. exists i. split; [exact H | apply Nat.eqb_refl].
Qed.

(** C2, as the code has it. Two line-items of the retrieved sequence are
    summed into one aggregated entry if and only if they agree on the
    ingredient name; the measurement unit is not compared. *)
Theorem summed_iff_same_name (rows : list line_item) (i j : nat) (a b : line_item) :
  nth_error rows i = Some a ->
  nth_error rows j = Some b ->
  (summed_together rows i j = true <-> item0 a = item0 b).
Proof.
  intros Ha Hb. unfold summed_together. rewrite existsb_exists. split.
  - intros ([k [v ps]] & Hin & H). simpl in H.
    apply andb_true_iff in H. destruct H as [Hi Hj].
    apply existsb_eqb_In in Hi, Hj.
    rewrite (traced_positions _ _ _ _ Hin) in Hi, Hj.
    apply In_positions in Hi, Hj.
    destruct Hi as (a' & Ha' & <-). destruct Hj as (b' & Hb' & Eb).
    congruence.
  - intros E. destruct (traced_entry rows i Ha) as [v Hin].
    exists (item0 a, (v, positions (item0 a) rows)). split; [exact Hin|].
    simpl. apply andb_true_iff. split; apply existsb_eqb_In, In_positions.
    + now exists a.
    + now exists b.
Qed.

(** An instance: two rows for flour, in grams and in cups. *)
Lemma summed_iff_same_name_witness :
  nth_error [("flour", "g", 200); ("flour", "cup", 1)] 0 = Some ("flour", "g", 200) /\
  nth_error [("flour", "g", 200); ("flour", "cup", 1)] 1 = Some ("flour", "cup", 1) /\
  (summed_together [("flour", "g", 200); ("flour", "cup", 1)] 0 1 = true <->
   item0 ("flour", "g", 200) = item0 ("flour", "cup", 1)).
Proof.
  split; [reflexivity|]. split; [reflexivity|].
  apply (@summed_iff_same_name [("flour", "g", 200); ("flour", "cup", 1)] 0 1
           ("flour", "g", 200) ("flour", "cup", 1)); reflexivity.
Defined.

(** The claim with the unit in the identity fails: flour in grams and flour
    in cups agree on the name only, and the loop sums them into the single
    entry of 201 "g". *)
Lemma units_not_compared :
  aggregate [("flour", "g", 200); ("flour", "cup", 1)]
    = [("flour", mk_info "g" 201)] /\
  summed_together [("flour", "g", 200); ("flour", "cup", 1)] 0 1 = true /\
  ~ (item0 ("flour", "g", 200) = item0 ("flour", "cup", 1) /\
     item1 ("flour", "g", 200) = item1 ("flour", "cup", 1)).
Proof.
  split; [reflexivity|]. split; [reflexivity|].
  intros [_ H]. discriminate H.
Qed.

(** ** The renderer *)

Lemma body_ops_length entries : forall i h,
  List.length (body_ops entries i h) = List.length entries.
Proof.
  induction entries as [|[name inf] rest IH]; intros i h; simpl; auto.
Qed.

(** The [k]-th entry (from 0) is drawn [30 * k] below the start, with
    index [i + k]. *)
Lemma body_ops_nth entries : forall i h k name inf,
  nth_error entries k = Some (name, inf) ->
  nth_error (body_ops entries i h) k
  = Some (DrawString 75 (h - 30 * Z.of_nat k) (body_line (i + Z.of_nat k) name inf)).
Proof.
  induction entries as [|[n0 i0] rest IH]; intros i h k name inf Hk.
  - now destruct k.
  - destruct k as [|k]; cbn [nth_error body_ops] in *.
    + injection Hk as -> ->. cbn [Z.of_nat]. now rewrite Z.sub_0_r, Z.add_0_r.
    + rewrite (IH _ _ _ _ _ Hk), Nat2Z.inj_succ.
      replace (h - 30 - 30 * Z.of_nat k) with (h - 30 * Z.succ (Z.of_nat k)) by lia.
      replace (i + 1 + Z.of_nat k) with (i + Z.succ (Z.of_nat k)) by lia.
      reflexivity.
Qed.

(** The loop cannot fail: it records [body_ops] and returns the position
    below the last line. *)
Lemma draw_body_run entries : forall i h c,
  draw_body entries i h c
  = Ok (h - 30 * Z.of_nat (List.length entries),
        {| registry := registry c;
           code := code c ++ body_ops entries i h;
           buffer := buffer c |}).
Proof.
  induction entries as [|[name inf] rest IH]; intros i h c.
  - simpl. unfold ret. destruct c; simpl.
    now rewrite app_nil_r, Z.sub_0_r.
  - cbn [draw_body body_ops]. unfold bind, drawString, emit.
    rewrite IH. cbn [registry code buffer List.length].
    rewrite <- app_assoc, Nat2Z.inj_succ. cbn [app].
    replace (h - 30 - 30 * Z.of_nat (List.length rest))
      with (h - 30 * Z.succ (Z.of_nat (List.length rest))) by lia.
    reflexivity.
Qed.

Lemma mem_string_head s l : mem_string s (s :: l) = true.
Proof. unfold mem_string. simpl. now rewrite String.eqb_refl. Qed.

(** [convert_pdf] in one equation: it raises exactly when the font file
    cannot be loaded, and otherwise returns the buffer holding the document,
    rewound to the start. *)
Lemma convert_pdf_run env data title font font_size :
  convert_pdf env data title font font_size =
  if font_files env (font_path font) then
    Ok (PyBytesIO {| getvalue := document env data title font font_size;
                     tell := 0 |})
  else Raise (TTFError (font_path font)).
Proof.
  unfold convert_pdf, convert_pdf_body, font_path, bind, setTitle, registerFont,
    emit, new_canvas. cbn [registry code buffer].
  destruct (font_files env ("./fonts/" ++ font ++ ".ttf")%string); [|reflexivity].
  unfold setFont, drawString, line, showPage, save, seek, emit.
  cbn [registry code buffer]. rewrite mem_string_head. cbn [orb].
  cbn [registry code buffer]. rewrite mem_string_head. cbn [orb].
  rewrite draw_body_run. cbn [registry code buffer].
  rewrite mem_string_head. cbn [orb registry code buffer].
  unfold bytesio_seek, bytesio_write. cbn [getvalue tell].
  unfold document, header_ops, footer_ops, PyDict.items.
  do 3 f_equal. cbn [app]. rewrite <- !app_assoc. reflexivity.
Qed.

Lemma document_length env data title font font_size :
  List.length (document env data title font font_size)
  = (8 + List.length data)%nat.
Proof.
  unfold document, header_ops, footer_ops, PyDict.items.
  rewrite !length_app, body_ops_length. simpl. lia.
Qed.

(** C5. For a mapping of any size, when the font loads, the renderer
    returns a document in which the title line is drawn at vertical position
    800 and the i-th entry (from 1) is drawn as "{i}. {name} - {amount}
    {unit}" at vertical position 800 - 30 * i; nothing compares the position
    with the page, so this holds whatever the sign of 800 - 30 * i. *)
Theorem body_layout (env : environ) (data : ingredient_dict)
  (title font : string) (font_size : Z) :
  font_files env (font_path font) = true ->
  exists b,
    convert_pdf env data title font font_size = Ok (PyBytesIO b) /\
    List.length (getvalue b) = (8 + List.length data)%nat /\
    nth_error (getvalue b) 2 = Some (DrawString 50 800 (title ++ ":")%string) /\
    forall (i : nat) name inf,
      (1 <= i)%nat ->
      nth_error (PyDict.items data) (i - 1) = Some (name, inf) ->
      nth_error (getvalue b) (3 + i)
      = Some (DrawString 75 (800 - 30 * Z.of_nat i)
                (str_int (Z.of_nat i) ++ ". " ++ name ++ " - "
                   ++ str_int (amount inf) ++ " " ++ measurement_unit inf)%string).
Proof.
  intros Hfont. rewrite convert_pdf_run, Hfont.
  eexists. split; [reflexivity|]. cbn [getvalue].
  split; [apply document_length|]. split; [reflexivity|].
  intros i name inf Hi Hn.
  unfold document, header_ops.
  replace (3 + i)%nat with (4 + (i - 1))%nat by lia.
  cbn [app nth_error Nat.add].
  rewrite nth_error_app1
    by (rewrite body_ops_length; apply nth_error_Some; rewrite Hn; discriminate).
  rewrite (body_ops_nth _ _ _ _ Hn). unfold body_line.
  replace (Z.of_nat (i - 1)) with (Z.of_nat i - 1) by lia.
  replace (770 - 30 * (Z.of_nat i - 1)) with (800 - 30 * Z.of_nat i) by lia.
  replace (1 + (Z.of_nat i - 1)) with (Z.of_nat i) by lia.
  reflexivity.
Qed.

(** The spec's example, rendered. *)
Lemma body_layout_witness :
  font_files sample_environ (font_path "Arial") = true /\
  exists b,
    convert_pdf sample_environ
      [("flour", mk_info "g" 500); ("eggs", mk_info "pcs" 4)]
      "Список покупок" "Arial" 12 = Ok (PyBytesIO b) /\
    List.length (getvalue b)
      = (8 + List.length [("flour", mk_info "g" 500); ("eggs", mk_info "pcs" 4)])%nat /\
    nth_error (getvalue b) 2 = Some (DrawString 50 800 ("Список покупок" ++ ":")%string) /\
    forall (i : nat) name inf,
      (1 <= i)%nat ->
      nth_error (PyDict.items [("flour", mk_info "g" 500); ("eggs", mk_info "pcs" 4)])
        (i - 1) = Some (name, inf) ->
      nth_error (getvalue b) (3 + i)
      = Some (DrawString 75 (800 - 30 * Z.of_nat i)
                (str_int (Z.of_nat i) ++ ". " ++ name ++ " - "
                   ++ str_int (amount inf) ++ " " ++ measurement_unit inf)%string).
Proof.
  split; [reflexivity|].
  apply (@body_layout sample_environ
           [("flour", mk_info "g" 500); ("eggs", mk_info "pcs" 4)]
           "Список покупок" "Arial" 12).
  reflexivity.
Defined.

(** The two numbered lines of the spec's example. *)
Example flour_eggs_document :
  convert_pdf sample_environ
    [("flour", mk_info "g" 500); ("eggs", mk_info "pcs" 4)]
    "Список покупок" "Arial" 12
  = Ok (PyBytesIO
          {| getvalue :=
               [SetTitle "Список покупок";
                SetFont "Arial" 12;
                DrawString 50 800 "Список покупок:";
                SetFont "Arial" 12;
                DrawString 75 770 "1. flour - 500 g";
                DrawString 75 740 "2. eggs - 4 pcs";
                Line 50 710 550 710;
                SetFont "Arial" 8;
                DrawString 50 700
                  "Спасибо, что используете Foodgram Project © 2024";
                ShowPage];
             tell := 0 |}).
Proof. vm_compute. reflexivity. Qed.

(** Thirty entries: the 27th line is drawn at -10, below the page. *)
Example body_draws_below_the_page :
  let data := map (fun n => (str_int (Z.of_nat n), mk_info "g" 1)) (seq 1 30) in
  exists b,
    convert_pdf sample_environ data "Список покупок" "Arial" 12
      = Ok (PyBytesIO b) /\
    nth_error (getvalue b) 30 = Some (DrawString 75 (-10) "27. 27 - 1 g").
Proof. eexists. split; vm_compute; reflexivity. Qed.

(** ** The download endpoint *)

Section DownloadFacts.
Variable repr_str : string -> string.

(** [download_shopping_cart] in one equation. *)
Lemma download_shopping_cart_run env req s :
  download_shopping_cart repr_str env req s =
  let ingredient_list := aggregate (cart_line_items (user req) s) in
  if font_files env (font_path "Arial") then
    Ok (FileResponse
          (PyBytesIO {| getvalue := document env ingredient_list
                                      "Список покупок" "Arial" 12;
                        tell := 0 |})
          true (shopping_list_filename repr_str ingredient_list))
  else Raise (TTFError (font_path "Arial")).
Proof.
  unfold download_shopping_cart. rewrite convert_pdf_run.
  cbv zeta. destruct (font_files env (font_path "Arial")); reflexivity.
Qed.

Lemma cart_line_items_empty u s :
  cart_empty u s = true -> cart_line_items u s = [].
Proof.
  unfold cart_empty, cart_line_items. rewrite negb_true_iff. intros H.
  assert (F : forall ri,
             filter (fun c => (row_recipe c =? ri_recipe ri) && (row_user c =? u))
               (shopping_cart_table s) = []).
  { intros ri. induction (shopping_cart_table s) as [|c l IH]; [reflexivity|].
    simpl in H. apply orb_false_iff in H. destruct H as [Hc Hl].
    simpl. rewrite Hc, andb_false_r. now apply IH. }
  induction (recipe_ingredient_table s) as [|ri l IH]; [reflexivity|].
  simpl. now rewrite F, IH.
Qed.

Lemma str_dict_empty : str_dict repr_str (PyDict.empty info) = "{}"%string.
Proof. reflexivity. Qed.

(** C6. For a user with no cart entry the aggregation is the empty mapping,
    and (the font being loadable) the renderer returns the complete document
    made of the title line and the footer only; the endpoint answers with
    that document as a file. *)
Theorem empty_cart_document (env : environ) (req : request) (s : db) :
  cart_empty (user req) s = true ->
  font_files env (font_path "Arial") = true ->
  aggregate (cart_line_items (user req) s) = PyDict.empty info /\
  convert_pdf env (PyDict.empty info) "Список покупок" "Arial" 12
  = Ok (PyBytesIO
          {| getvalue :=
               [SetTitle "Список покупок";
                SetFont "Arial" 12;
                DrawString 50 800 "Список покупок:";
                SetFont "Arial" 12;
                Line 50 770 550 770;
                SetFont "Arial" 8;
                DrawString 50 760
                  ("Спасибо, что используете Foodgram Project © "
                     ++ str_int (now_year env))%string;
                ShowPage];
             tell := 0 |}) /\
  exists doc name,
    download_shopping_cart repr_str env req s = Ok (FileResponse doc true name) /\
    convert_pdf env (PyDict.empty info) "Список покупок" "Arial" 12 = Ok doc /\
    name = "shopping_list_99914.pdf"%string.
Proof.
  intros Hcart Hfont.
  assert (Hagg : aggregate (cart_line_items (user req) s) = PyDict.empty info).
  { now rewrite cart_line_items_empty. }
  split; [exact Hagg|]. split.
  - rewrite convert_pdf_run, Hfont. reflexivity.
  - rewrite download_shopping_cart_run, convert_pdf_run, Hagg. cbv zeta.
    rewrite Hfont. do 2 eexists. split; [reflexivity|]. split; [reflexivity|].
    unfold shopping_list_filename. rewrite str_dict_empty.
    vm_compute. reflexivity.
Qed.

End DownloadFacts.

(** User 2 has no cart entry in the sample store. *)
Lemma empty_cart_document_witness :
  cart_empty (user (mk_request GET 2)) sample_db = true /\
  font_files sample_environ (font_path "Arial") = true /\
  aggregate (cart_line_items (user (mk_request GET 2)) sample_db) = PyDict.empty info /\
  exists doc name,
    download_shopping_cart repr_plain sample_environ (mk_request GET 2) sample_db
      = Ok (FileResponse doc true name) /\
    convert_pdf sample_environ (PyDict.empty info) "Список покупок" "Arial" 12
      = Ok doc /\
    name = "shopping_list_99914.pdf"%string.
Proof.
  split; [reflexivity|]. split; [reflexivity|].
  assert (H := @empty_cart_document repr_plain sample_environ (mk_request GET 2)
                 sample_db eq_refl eq_refl).
  split; [exact (proj1 H) | exact (proj2 (proj2 H))].
Defined.

(** C7. When the font loads, what follows the last ingredient line in the
    document is a horizontal rule, then the signature line: the fixed phrase
    with the year of the clock, set in the body font size minus four. *)
Theorem footer_after_body (env : environ) (data : ingredient_dict)
  (title font : string) (font_size : Z) :
  font_files env (font_path font) = true ->
  exists b,
    convert_pdf env data title font font_size = Ok (PyBytesIO b) /\
    let n := List.length data in
    let height := 800 - 30 * (Z.of_nat n + 1) in
    nth_error (getvalue b) 3 = Some (SetFont font font_size) /\
    firstn n (skipn 4 (getvalue b)) = body_ops (PyDict.items data) 1 770 /\
    skipn (4 + n) (getvalue b)
    = [Line 50 height 550 height;
       SetFont font (font_size - 4);
       DrawString 50 (height - 10)
         ("Спасибо, что используете Foodgram Project © "
            ++ str_int (now_year env))%string;
       ShowPage].
Proof.
  intros Hfont. rewrite convert_pdf_run, Hfont.
  eexists. split; [reflexivity|]. cbn [getvalue]. cbv zeta.
  unfold document, header_ops, footer_ops.
  split; [reflexivity|].
  assert (Hlen : List.length (body_ops (PyDict.items data) 1 770)
                 = List.length data) by apply body_ops_length.
  split.
  - cbn [app skipn]. rewrite <- Hlen, firstn_app, Nat.sub_diag, firstn_all.
    cbn [firstn]. apply app_nil_r.
  - cbn [app skipn Nat.add]. rewrite <- Hlen, skipn_app, Nat.sub_diag, skipn_all.
    cbn [skipn app]. rewrite Hlen.
    replace (770 - 30 * Z.of_nat (List.length data))
      with (800 - 30 * (Z.of_nat (List.length data) + 1)) by lia.
    reflexivity.
Qed.

Lemma footer_after_body_witness :
  font_files sample_environ (font_path "Arial") = true /\
  exists b,
    convert_pdf sample_environ
      [("flour", mk_info "g" 500); ("eggs", mk_info "pcs" 4)]
      "Список покупок" "Arial" 12 = Ok (PyBytesIO b) /\
    nth_error (getvalue b) 3 = Some (SetFont "Arial" 12) /\
    firstn 2 (skipn 4 (getvalue b))
    = [DrawString 75 770 "1. flour - 500 g"; DrawString 75 740 "2. eggs - 4 pcs"] /\
    skipn 6 (getvalue b)
    = [Line 50 710 550 710;
       SetFont "Arial" 8;
       DrawString 50 700 "Спасибо, что используете Foodgram Project © 2024";
       ShowPage].
Proof.
  split; [reflexivity|].
  exact (@footer_after_body sample_environ
           [("flour", mk_info "g" 500); ("eggs", mk_info "pcs" 4)]
           "Список покупок" "Arial" 12 eq_refl).
Defined.

(** C9. Whenever [convert_pdf] returns, what it returns is a buffer (not
    [None]), rewound to position 0 and true under [if pdf_buffer]; so
    [download_shopping_cart] never takes the branch that builds the 500
    response: it answers with the file, or the exception raised by
    [convert_pdf] leaves the view as it is. *)
Theorem falsy_branch_unreachable (repr_str : string -> string) (env : environ)
  (data : ingredient_dict) (title font : string) (font_size : Z)
  (req : request) (s : db) :
  (forall v, convert_pdf env data title font font_size = Ok v ->
     exists b, v = PyBytesIO b /\ tell b = 0%nat /\ truth v = true) /\
  (forall resp, download_shopping_cart repr_str env req s = Ok resp ->
     status_code resp <> HTTP_500_INTERNAL_SERVER_ERROR /\
     exists doc name, resp = FileResponse doc true name) /\
  (forall e,
     convert_pdf env (aggregate (cart_line_items (user req) s))
       "Список покупок" "Arial" 12 = Raise e ->
     download_shopping_cart repr_str env req s = Raise e).
Proof.
  split; [|split].
  - intros v. rewrite convert_pdf_run.
    destruct (font_files env (font_path font)); [|discriminate].
    intros [= <-]. eexists. repeat split.
  - intros resp. rewrite download_shopping_cart_run. cbv zeta.
    destruct (font_files env (font_path "Arial")); [|discriminate].
    intros [= <-]. split; [discriminate|]. now do 2 eexists.
  - intros e. rewrite download_shopping_cart_run, convert_pdf_run. cbv zeta.
    destruct (font_files env (font_path "Arial")); [discriminate|].
    now intros [= <-].
Qed.

(** Both outcomes occur: with the font the view answers with the file, and
    without it the [TTFError] is what the view raises. *)
Lemma falsy_branch_unreachable_witness :
  (exists b,
     convert_pdf sample_environ (PyDict.empty info) "Список покупок" "Arial" 12
       = Ok (PyBytesIO b) /\ tell b = 0%nat) /\
  download_shopping_cart repr_plain fontless_environ (mk_request GET 1) sample_db
    = Raise (TTFError "./fonts/Arial.ttf").
Proof.
  split.
  - edestruct (proj1 (@falsy_branch_unreachable repr_plain sample_environ
                        (PyDict.empty info) "Список покупок" "Arial" 12
                        (mk_request GET 1) sample_db))
      as (b & E & Hb & _).
    + rewrite convert_pdf_run. vm_compute. reflexivity.
    + exists b. split; [now rewrite <- E | exact Hb].
  - apply (proj2 (proj2 (@falsy_branch_unreachable repr_plain fontless_environ
                           (PyDict.empty info) "Список покупок" "Arial" 12
                           (mk_request GET 1) sample_db))).
    rewrite convert_pdf_run. reflexivity.
Defined.

(** C4, on the code. With no loadable font file, [download_shopping_cart]
    returns no response at all: the [TTFError] raised in [convert_pdf] leaves
    the view uncaught, for every request and store. *)
Theorem font_failure_leaves_the_view (repr_str : string -> string)
  (req : request) (s : db) :
  download_shopping_cart repr_str fontless_environ req s
  = Raise (TTFError "./fonts/Arial.ttf").
Proof.
  rewrite download_shopping_cart_run. reflexivity.
Qed.

(** ** The file name (lines 187-190) *)

(** The test suite of RFC 1321. *)
Example md5_empty : MD5.hexdigest "" = "d41d8cd98f00b204e9800998ecf8427e"%string.
Proof. vm_compute. reflexivity. Qed.

Example md5_abc : MD5.hexdigest "abc" = "900150983cd24fb0d6963f7d28e17f72"%string.
Proof. vm_compute. reflexivity. Qed.

Example md5_message_digest :
  MD5.hexdigest "message digest" = "f96b697d7cb7938d525a2f31aaf161d0"%string.
Proof. vm_compute. reflexivity. Qed.

Example md5_two_blocks :
  MD5.hexdigest
    "12345678901234567890123456789012345678901234567890123456789012345678901234567890"
  = "57edf4a22be3c955ac49da2e2107b67a"%string.
Proof. vm_compute. reflexivity. Qed.

Lemma is_hex_hexdigit n : is_hex (MD5.hexdigit n) = true.
Proof.
  unfold MD5.hexdigit. generalize (Z.to_nat n). intros k.
  do 16 (destruct k as [|k]; [reflexivity|]).
  destruct k; reflexivity.
Qed.

(** A digest starts with five hexadecimal digits, whatever the message. *)
Lemma hexdigest_prefix msg :
  exists c1 c2 c3 c4 c5 rest,
    MD5.hexdigest msg
    = String c1 (String c2 (String c3 (String c4 (String c5 rest)))) /\
    is_hex c1 = true /\ is_hex c2 = true /\ is_hex c3 = true /\
    is_hex c4 = true /\ is_hex c5 = true.
Proof.
  unfold MD5.hexdigest.
  destruct (MD5.digest (MD5.bytes_of_string msg)) as [[[a b] c] d].
  unfold MD5.hex_word at 1. unfold MD5.hex_byte at 1 2 3.
  do 6 eexists. split; [reflexivity|].
  repeat split; apply is_hex_hexdigit.
Qed.

(** C3. The name of the download is "shopping_list_", then the first five
    characters of the hexadecimal MD5 digest of the mapping's string form,
    then ".pdf"; those five characters are hexadecimal digits, so the name
    has the shape shopping_list_{5-hex-chars}.pdf; equal mappings (a mapping
    is its entries in iteration order), and more generally mappings with one
    string form, get one name; and the file response of the endpoint carries
    this name. *)
Theorem filename_from_md5 (repr_str : string -> string) (m : ingredient_dict) :
  shopping_list_filename repr_str m
  = ("shopping_list_" ++ slice_to 5 (MD5.hexdigest (str_dict repr_str m))
       ++ ".pdf")%string /\
  String.length (slice_to 5 (MD5.hexdigest (str_dict repr_str m))) = 5%nat /\
  filename_shape (shopping_list_filename repr_str m) = true /\
  (forall m', m' = m ->
     shopping_list_filename repr_str m' = shopping_list_filename repr_str m) /\
  (forall m', str_dict repr_str m' = str_dict repr_str m ->
     shopping_list_filename repr_str m' = shopping_list_filename repr_str m) /\
  (forall env req s doc att name,
     aggregate (cart_line_items (user req) s) = m ->
     download_shopping_cart repr_str env req s = Ok (FileResponse doc att name) ->
     name = shopping_list_filename repr_str m).
Proof.
  split; [reflexivity|].
  destruct (hexdigest_prefix (str_dict repr_str m))
    as (c1 & c2 & c3 & c4 & c5 & rest & E & H1 & H2 & H3 & H4 & H5).
  split; [now rewrite E|]. split.
  - unfold shopping_list_filename. cbv zeta. rewrite E.
    unfold filename_shape. cbn -[is_hex]. now rewrite H1, H2, H3, H4, H5.
  - split; [now intros m' ->|]. split.
    + intros m' Hs. unfold shopping_list_filename. now rewrite Hs.
    + intros env req s doc att name <-. rewrite download_shopping_cart_run.
      cbv zeta. destruct (font_files env (font_path "Arial")); [|discriminate].
      now intros [= _ _ <-].
Qed.

(** The name for the spec's example, with flour and eggs needing no
    escaping. *)
Lemma filename_from_md5_witness :
  str_dict repr_plain [("flour", mk_info "g" 500); ("eggs", mk_info "pcs" 4)]
  = ("{'flour': {'measurement_unit': 'g', 'amount': 500}, "
       ++ "'eggs': {'measurement_unit': 'pcs', 'amount': 4}}")%string /\
  shopping_list_filename repr_plain
    [("flour", mk_info "g" 500); ("eggs", mk_info "pcs" 4)]
  = ("shopping_list_"
       ++ slice_to 5
            (MD5.hexdigest
               (str_dict repr_plain
                  [("flour", mk_info "g" 500); ("eggs", mk_info "pcs" 4)]))
       ++ ".pdf")%string /\
  filename_shape
    (shopping_list_filename repr_plain
       [("flour", mk_info "g" 500); ("eggs", mk_info "pcs" 4)]) = true.
Proof.
  split; [vm_compute; reflexivity|].
  pose proof (@filename_from_md5 repr_plain
                [("flour", mk_info "g" 500); ("eggs", mk_info "pcs" 4)])
    as (H1 & _ & H3 & _).
  split; [exact H1 | exact H3].
Defined.

Example flour_eggs_filename :
  shopping_list_filename repr_plain
    [("flour", mk_info "g" 500); ("eggs", mk_info "pcs" 4)]
  = "shopping_list_44dab.pdf"%string.
Proof. vm_compute. reflexivity. Qed.

(** Non-ASCII text is hashed through its UTF-8 bytes. *)
Example flour_filename_cyrillic :
  shopping_list_filename repr_plain [("мука", mk_info "г" 500)]
  = "shopping_list_31ca4.pdf"%string.
Proof. vm_compute. reflexivity. Qed.

(** The spec's example end to end: user 1 of the sample store downloads the
    list of recipes A and B. *)
Example sample_download :
  cart_line_items 1 sample_db
    = [("flour", "g", 200); ("eggs", "pcs", 3);
       ("flour", "g", 300); ("eggs", "pcs", 1)] /\
  download_shopping_cart repr_plain sample_environ (mk_request GET 1) sample_db
  = Ok (FileResponse
          (PyBytesIO
             {| getvalue :=
                  [SetTitle "Список покупок";
                   SetFont "Arial" 12;
                   DrawString 50 800 "Список покупок:";
                   SetFont "Arial" 12;
                   DrawString 75 770 "1. flour - 500 g";
                   DrawString 75 740 "2. eggs - 4 pcs";
                   Line 50 710 550 710;
                   SetFont "Arial" 8;
                   DrawString 50 700
                     "Спасибо, что используете Foodgram Project © 2024";
                   ShowPage];
                tell := 0 |})
          true "shopping_list_44dab.pdf").
Proof. split; vm_compute; reflexivity. Qed.

(** ** Favorites and the shopping cart *)

(** The sample store: user 1 adds recipe 10 again, and removes recipe 11
    from the favorites it is not in. *)
Example duplicate_add_sample :
  post_list Favorite 1 10 sample_db
  = (Ok (Response (DictData [("errors", "Рецепт уже добавлен в Favorite")]) 400),
     sample_db).
Proof. reflexivity. Qed.

Example missing_delete_sample :
  delete_list Favorite 1 11 sample_db
  = (Ok (Response (DictData [("errors", "Рецепт не добавлен в Favorite")]) 400),
     sample_db).
Proof. reflexivity. Qed.

(** C8. For every list (favorites or shopping cart), user and recipe id:
    [post_list] on an entry that is present and [delete_list] on an entry
    that is absent both return the 400 response with their message and leave
    the store as it was, and so do the [favorite] and [shopping_cart]
    actions that call them. *)
Theorem duplicate_add_and_missing_delete_rejected
  (model : list_model) (u pk : Z) (s : db) :
  (filter_exists model u pk s = true ->
     post_list model u pk s
     = (Ok (Response
              (DictData [("errors",
                          ("Рецепт уже добавлен в " ++ model_name model)%string)])
              400), s)) /\
  (filter_exists model u pk s = false ->
     delete_list model u pk s
     = (Ok (Response
              (DictData [("errors",
                          ("Рецепт не добавлен в " ++ model_name model)%string)])
              400), s)) /\
  (filter_exists ShoppingCart u pk s = true ->
     rejected (shopping_cart (mk_request POST u) pk s) s) /\
  (filter_exists ShoppingCart u pk s = false ->
     rejected (shopping_cart (mk_request DELETE u) pk s) s) /\
  (filter_exists Favorite u pk s = true ->
     rejected (favorite (mk_request POST u) pk s) s) /\
  (filter_exists Favorite u pk s = false ->
     rejected (favorite (mk_request DELETE u) pk s) s).
Proof.
  assert (Hpost : forall m, filter_exists m u pk s = true ->
            post_list m u pk s
            = (Ok (Response
                     (DictData [("errors",
                                 ("Рецепт уже добавлен в " ++ model_name m)%string)])
                     400), s)).
  { intros m H. unfold post_list. now rewrite H. }
  assert (Hdel : forall m, filter_exists m u pk s = false ->
            delete_list m u pk s
            = (Ok (Response
                     (DictData [("errors",
                                 ("Рецепт не добавлен в " ++ model_name m)%string)])
                     400), s)).
  { intros m H. unfold delete_list. now rewrite H. }
  repeat split; auto.
  - unfold shopping_cart. cbn [method user]. now rewrite (Hpost _ H).
  - unfold shopping_cart; cbn [method user]; rewrite (Hpost _ H). now do 2 eexists.
  - unfold shopping_cart. cbn [method user]. now rewrite (Hdel _ H).
  - unfold shopping_cart; cbn [method user]; rewrite (Hdel _ H). now do 2 eexists.
  - unfold favorite. destruct (negb (recipe_exists pk s)); [reflexivity|].
    cbn [method user]. now rewrite (Hpost _ H).
  - unfold favorite. destruct (negb (recipe_exists pk s)); [now do 2 eexists|].
    cbn [method user]. rewrite (Hpost _ H). now do 2 eexists.
  - unfold favorite. destruct (negb (recipe_exists pk s)); [reflexivity|].
    cbn [method user]. now rewrite (Hdel _ H).
  - unfold favorite. destruct (negb (recipe_exists pk s)); [now do 2 eexists|].
    cbn [method user]. rewrite (Hdel _ H). now do 2 eexists.
Qed.

(** In the sample store recipe 10 is in the cart of user 1, and nothing is
    in the cart of user 2. *)
Lemma duplicate_add_and_missing_delete_rejected_witness :
  filter_exists ShoppingCart 1 10 sample_db = true /\
  post_list ShoppingCart 1 10 sample_db
  = (Ok (Response (DictData [("errors", "Рецепт уже добавлен в ShoppingCart")]) 400),
     sample_db) /\
  filter_exists ShoppingCart 2 10 sample_db = false /\
  delete_list ShoppingCart 2 10 sample_db
  = (Ok (Response (DictData [("errors", "Рецепт не добавлен в ShoppingCart")]) 400),
     sample_db).
Proof.
  split; [reflexivity|]. split.
  - exact (proj1 (@duplicate_add_and_missing_delete_rejected
                    ShoppingCart 1 10 sample_db) eq_refl).
  - split; [reflexivity|].
    exact (proj1 (proj2 (@duplicate_add_and_missing_delete_rejected
                           ShoppingCart 2 10 sample_db)) eq_refl).
Defined.

(** Under referential integrity no list entry names a missing recipe. *)
Lemma no_entry_for_missing_recipe model u pk s :
  references_valid s = true ->
  recipe_exists pk s = false ->
  filter_exists model u pk s = false.
Proof.
  unfold references_valid, filter_exists. intros Hv Hpk.
  apply andb_true_iff in Hv. destruct Hv as [Hf Hc].
  assert (H : forallb (fun r => recipe_exists (row_recipe r) s) (objects model s)
              = true) by now destruct model.
  clear Hf Hc. induction (objects model s) as [|r l IH]; [reflexivity|].
  simpl in *. apply andb_true_iff in H. destruct H as [Hr Hl].
  rewrite (IH Hl), orb_false_r. unfold row_matches.
  destruct (Z.eqb_spec (row_recipe r) pk) as [E|_]; [|apply andb_false_r].
  rewrite E in Hr. congruence.
Qed.

(** C10. For an id that is the key of no recipe (the list tables pointing
    to existing recipes only), the [favorite] action returns the 400
    response with 'Recipe not found', whatever the method, while the
    [shopping_cart] action on POST raises [Http404] from
    [get_object_or_404]; neither changes the store. *)
Theorem missing_recipe_400_versus_404 (u pk : Z) (s : db) :
  references_valid s = true ->
  recipe_exists pk s = false ->
  favorite (mk_request POST u) pk s
  = (Ok (Response (DictData [("error", "Recipe not found")]) 400), s) /\
  favorite (mk_request DELETE u) pk s
  = (Ok (Response (DictData [("error", "Recipe not found")]) 400), s) /\
  shopping_cart (mk_request POST u) pk s = (Raise Http404, s).
Proof.
  intros Hv Hpk. unfold favorite, shopping_cart. rewrite Hpk. cbn [negb method user].
  repeat split. unfold post_list, get_object_or_404.
  now rewrite (@no_entry_for_missing_recipe ShoppingCart u pk s Hv Hpk), Hpk.
Qed.

(** Recipe 99 is not in the sample store. *)
Lemma missing_recipe_400_versus_404_witness :
  references_valid sample_db = true /\
  recipe_exists 99 sample_db = false /\
  favorite (mk_request POST 1) 99 sample_db
  = (Ok (Response (DictData [("error", "Recipe not found")]) 400), sample_db) /\
  favorite (mk_request DELETE 1) 99 sample_db
  = (Ok (Response (DictData [("error", "Recipe not found")]) 400), sample_db) /\
  shopping_cart (mk_request POST 1) 99 sample_db = (Raise Http404, sample_db).
Proof.
  split; [reflexivity|]. split; [reflexivity|].
  exact (@missing_recipe_400_versus_404 1 99 sample_db eq_refl eq_refl).
Defined.


(* ===================================================================== *)
(** * Further properties of the list actions *)
(* ===================================================================== *)

Lemma set_objects_same model s : set_objects model (objects model s) s = s.
Proof. destruct model, s; reflexivity. Qed.

Lemma objects_set_objects model rows s :
  objects model (set_objects model rows s) = rows.
Proof. now destruct model. Qed.

Lemma objects_set_objects_other model rows s :
  objects (other_model model) (set_objects model rows s)
  = objects (other_model model) s.
Proof. now destruct model. Qed.

Lemma set_objects_twice model rows rows' s :
  set_objects model rows' (set_objects model rows s) = set_objects model rows' s.
Proof. now destruct model. Qed.

Lemma recipe_exists_set_objects model rows pk s :
  recipe_exists pk (set_objects model rows s) = recipe_exists pk s.
Proof. now destruct model. Qed.

Lemma row_matches_iff u pk r :
  row_matches u pk r = true <-> row_user r = u /\ row_recipe r = pk.
Proof.
  unfold row_matches. now rewrite andb_true_iff, !Z.eqb_eq.
Qed.

Lemma row_matches_mk u pk u' pk' :
  row_matches u' pk' (mk_row u pk) = (u =? u') && (pk =? pk').
Proof. reflexivity. Qed.

(** Deleting the matching rows of a table without any gives the table. *)
Lemma filter_unmatched u pk rows :
  existsb (row_matches u pk) rows = false ->
  filter (fun r => negb (row_matches u pk r)) rows = rows.
Proof.
  induction rows as [|r rows IH]; simpl; [reflexivity|].
  intros H. apply orb_false_iff in H. destruct H as [Hr Hl].
  rewrite Hr. simpl. now rewrite IH.
Qed.

Lemma existsb_filter_unmatched u pk rows :
  existsb (row_matches u pk) (filter (fun r => negb (row_matches u pk r)) rows)
  = false.
Proof.
  induction rows as [|r rows IH]; simpl; [reflexivity|].
  destruct (row_matches u pk r) eqn:E; simpl; [exact IH|].
  now rewrite E, IH.
Qed.

Lemma existsb_filter_other u pk u' pk' rows :
  (u', pk') <> (u, pk) ->
  existsb (row_matches u' pk') (filter (fun r => negb (row_matches u pk r)) rows)
  = existsb (row_matches u' pk') rows.
Proof.
  intros Hne. induction rows as [|r rows IH]; simpl; [reflexivity|].
  destruct (row_matches u pk r) eqn:E; simpl; rewrite IH; [|reflexivity].
  destruct (row_matches u' pk' r) eqn:E'; [|reflexivity].
  apply row_matches_iff in E, E'. exfalso. apply Hne.
  destruct E as [<- <-], E' as [<- <-]. reflexivity.
Qed.

(** What a successful [post_list] returns. *)
Lemma post_list_created model u pk s :
  filter_exists model u pk s = false ->
  recipe_exists pk s = true ->
  post_list model u pk s
  = (Ok (Response (RecipeListData pk) HTTP_201_CREATED),
     objects_create model u pk s).
Proof.
  intros Ha He. unfold post_list, get_object_or_404. now rewrite Ha, He.
Qed.

(** What a successful [delete_list] returns. *)
Lemma delete_list_deleted model u pk s :
  filter_exists model u pk s = true ->
  delete_list model u pk s
  = (Ok (Response NoData HTTP_204_NO_CONTENT), filter_delete model u pk s).
Proof.
  intros Ha. unfold delete_list. now rewrite Ha.
Qed.

Lemma filter_exists_create model u pk u' pk' s :
  filter_exists model u' pk' (objects_create model u pk s)
  = filter_exists model u' pk' s || ((u =? u') && (pk =? pk')).
Proof.
  unfold filter_exists, objects_create.
  rewrite objects_set_objects, existsb_app. simpl.
  now rewrite row_matches_mk, orb_false_r.
Qed.

(** X1. Adding an entry that is absent, for a recipe that exists, answers
    201 with the recipe's data; afterwards the entry is present, every other
    entry of that list is present exactly if it was, and the other list, the
    recipes and their ingredients are untouched. *)
Theorem post_list_inserts_the_entry (model : list_model) (u pk : Z) (s : db) :
  filter_exists model u pk s = false ->
  recipe_exists pk s = true ->
  let out := post_list model u pk s in
  fst out = Ok (Response (RecipeListData pk) 201) /\
  filter_exists model u pk (snd out) = true /\
  (forall u' pk', (u', pk') <> (u, pk) ->
     filter_exists model u' pk' (snd out) = filter_exists model u' pk' s) /\
  objects model (snd out) = objects model s ++ [mk_row u pk] /\
  objects (other_model model) (snd out) = objects (other_model model) s /\
  recipe_table (snd out) = recipe_table s /\
  recipe_ingredient_table (snd out) = recipe_ingredient_table s.
Proof.
  intros Ha He out. subst out. rewrite (post_list_created _ _ _ _ Ha He).
  cbn [fst snd]. split; [reflexivity|]. split.
  { rewrite filter_exists_create, !Z.eqb_refl. apply orb_true_r. }
  split.
  { intros u' pk' Hne. rewrite filter_exists_create.
    destruct (Z.eqb_spec u u') as [->|]; [|apply orb_false_r].
    destruct (Z.eqb_spec pk pk') as [->|]; [|apply orb_false_r].
    now contradiction Hne. }
  unfold objects_create.
  split; [apply objects_set_objects|].
  split; [apply objects_set_objects_other|].
  now destruct model.
Qed.

(** User 2 adds recipe 10 to the cart of the sample store. *)
Lemma post_list_inserts_the_entry_witness :
  filter_exists ShoppingCart 2 10 sample_db = false /\
  recipe_exists 10 sample_db = true /\
  fst (post_list ShoppingCart 2 10 sample_db)
    = Ok (Response (RecipeListData 10) 201) /\
  filter_exists ShoppingCart 2 10 (snd (post_list ShoppingCart 2 10 sample_db))
    = true.
Proof.
  split; [reflexivity|]. split; [reflexivity|].
  pose proof (@post_list_inserts_the_entry ShoppingCart 2 10 sample_db
                eq_refl eq_refl) as (H1 & H2 & _).
  split; [exact H1 | exact H2].
Defined.

(** X2. [post_list] is not idempotent: right after a successful add, the
    same add is refused with 400 and changes nothing. *)
Theorem post_list_twice_is_refused (model : list_model) (u pk : Z) (s : db) :
  filter_exists model u pk s = false ->
  recipe_exists pk s = true ->
  let s1 := snd (post_list model u pk s) in
  post_list model u pk s1
  = (Ok (Response
           (DictData [("errors",
                       ("Рецепт уже добавлен в " ++ model_name model)%string)])
           400), s1).
Proof.
  intros Ha He s1. subst s1. rewrite (post_list_created _ _ _ _ Ha He).
  cbn [snd]. unfold post_list at 1.
  now rewrite filter_exists_create, !Z.eqb_refl, orb_true_r.
Qed.

Lemma post_list_twice_is_refused_witness :
  filter_exists Favorite 1 11 sample_db = false /\
  recipe_exists 11 sample_db = true /\
  post_list Favorite 1 11 (snd (post_list Favorite 1 11 sample_db))
  = (Ok (Response (DictData [("errors", "Рецепт уже добавлен в Favorite")]) 400),
     snd (post_list Favorite 1 11 sample_db)).
Proof.
  split; [reflexivity|]. split; [reflexivity|].
  exact (@post_list_twice_is_refused Favorite 1 11 sample_db eq_refl eq_refl).
Defined.

(** X3. Adding an absent entry and deleting it again gives 201, then 204,
    and the store is exactly what it was. *)
Theorem post_then_delete_restores_the_store (model : list_model) (u pk : Z)
  (s : db) :
  filter_exists model u pk s = false ->
  recipe_exists pk s = true ->
  let s1 := snd (post_list model u pk s) in
  fst (post_list model u pk s) = Ok (Response (RecipeListData pk) 201) /\
  delete_list model u pk s1 = (Ok (Response NoData 204), s).
Proof.
  intros Ha He s1. subst s1. rewrite (post_list_created _ _ _ _ Ha He).
  cbn [fst snd]. split; [reflexivity|].
  rewrite delete_list_deleted
    by (rewrite filter_exists_create, !Z.eqb_refl; apply orb_true_r).
  f_equal. unfold filter_delete, objects_create.
  rewrite objects_set_objects, set_objects_twice, filter_app. simpl.
  rewrite row_matches_mk, !Z.eqb_refl. simpl.
  rewrite app_nil_r, filter_unmatched by exact Ha.
  apply set_objects_same.
Qed.

Lemma post_then_delete_restores_the_store_witness :
  filter_exists ShoppingCart 2 11 sample_db = false /\
  recipe_exists 11 sample_db = true /\
  fst (post_list ShoppingCart 2 11 sample_db)
    = Ok (Response (RecipeListData 11) 201) /\
  delete_list ShoppingCart 2 11 (snd (post_list ShoppingCart 2 11 sample_db))
    = (Ok (Response NoData 204), sample_db).
Proof.
  split; [reflexivity|]. split; [reflexivity|].
  exact (@post_then_delete_restores_the_store ShoppingCart 2 11 sample_db
           eq_refl eq_refl).
Defined.

(** X4. Deleting an entry that is present answers 204; afterwards the entry
    is absent, every other entry of that list is present exactly if it was,
    the other list is untouched, and deleting once more is refused with 400
    and changes nothing. *)
Theorem delete_list_removes_the_entry (model : list_model) (u pk : Z) (s : db) :
  filter_exists model u pk s = true ->
  let out := delete_list model u pk s in
  fst out = Ok (Response NoData 204) /\
  filter_exists model u pk (snd out) = false /\
  (forall u' pk', (u', pk') <> (u, pk) ->
     filter_exists model u' pk' (snd out) = filter_exists model u' pk' s) /\
  objects (other_model model) (snd out) = objects (other_model model) s /\
  delete_list model u pk (snd out)
  = (Ok (Response
           (DictData [("errors",
                       ("Рецепт не добавлен в " ++ model_name model)%string)])
           400), snd out).
Proof.
  intros Ha out. subst out. rewrite (delete_list_deleted _ _ _ _ Ha).
  cbn [fst snd].
  assert (Hgone : filter_exists model u pk (filter_delete model u pk s) = false).
  { unfold filter_exists, filter_delete. rewrite objects_set_objects.
    apply existsb_filter_unmatched. }
  split; [reflexivity|]. split; [exact Hgone|]. split.
  { intros u' pk' Hne. unfold filter_exists, filter_delete.
    rewrite objects_set_objects. now apply existsb_filter_other. }
  split; [apply objects_set_objects_other|].
  unfold delete_list. now rewrite Hgone.
Qed.

Lemma delete_list_removes_the_entry_witness :
  filter_exists ShoppingCart 1 10 sample_db = true /\
  fst (delete_list ShoppingCart 1 10 sample_db) = Ok (Response NoData 204) /\
  filter_exists ShoppingCart 1 10 (snd (delete_list ShoppingCart 1 10 sample_db))
    = false.
Proof.
  split; [reflexivity|].
  pose proof (@delete_list_removes_the_entry ShoppingCart 1 10 sample_db eq_refl)
    as (H1 & H2 & _).
  split; [exact H1 | exact H2].
Defined.

(** The store after [post_list] and after [delete_list]. *)
Lemma post_list_store model u pk s :
  snd (post_list model u pk s) = s \/
  (filter_exists model u pk s = false /\ recipe_exists pk s = true /\
   snd (post_list model u pk s) = objects_create model u pk s).
Proof.
  unfold post_list, get_object_or_404.
  destruct (filter_exists model u pk s); [now left|].
  destruct (recipe_exists pk s); [right | left]; auto.
Qed.

Lemma delete_list_store model u pk s :
  snd (delete_list model u pk s) = s \/
  snd (delete_list model u pk s) = filter_delete model u pk s.
Proof.
  unfold delete_list. destruct (filter_exists model u pk s); auto.
Qed.

Lemma references_valid_set_objects model rows s :
  references_valid s = true ->
  forallb (fun r => recipe_exists (row_recipe r) s) rows = true ->
  references_valid (set_objects model rows s) = true.
Proof.
  unfold references_valid, recipe_exists. intros Hv Hr.
  apply andb_true_iff in Hv. destruct Hv as [Hf Hc].
  destruct model;
    cbn [set_objects recipe_table favorite_table shopping_cart_table];
    apply andb_true_iff; split; assumption.
Qed.

Lemma references_valid_objects model s :
  references_valid s = true ->
  forallb (fun r => recipe_exists (row_recipe r) s) (objects model s) = true.
Proof.
  unfold references_valid. intros Hv.
  apply andb_true_iff in Hv. now destruct model.
Qed.

Lemma forallb_filter_keep {A : Type} (p q : A -> bool) l :
  forallb p l = true -> forallb p (filter q l) = true.
Proof.
  induction l as [|x l IH]; simpl; [reflexivity|].
  intros H. apply andb_true_iff in H. destruct H as [Hx Hl].
  destruct (q x); simpl; [rewrite Hx|]; auto.
Qed.

Lemma NoDup_map_filter {A B : Type} (f : A -> B) (q : A -> bool) l :
  NoDup (map f l) -> NoDup (map f (filter q l)).
Proof.
  induction l as [|x l IH]; simpl; [auto|].
  intros H. inversion H as [|? ? Hn Hl]; subst.
  destruct (q x); simpl; [|auto]. constructor; [|auto].
  intros Hin. apply Hn. apply in_map_iff in Hin.
  destruct Hin as (y & E & Hy). apply filter_In in Hy.
  rewrite <- E. apply in_map. tauto.
Qed.

Lemma not_In_unmatched u pk rows :
  existsb (row_matches u pk) rows = false ->
  ~ In (u, pk) (map (fun r => (row_user r, row_recipe r)) rows).
Proof.
  intros H Hin. apply in_map_iff in Hin. destruct Hin as (r & E & Hr).
  assert (T : existsb (row_matches u pk) rows = true).
  { apply existsb_exists. exists r. split; [exact Hr|].
    apply row_matches_iff. now injection E. }
  congruence.
Qed.

Lemma rows_unique_set_other model m rows s :
  m <> model -> rows_unique m s -> rows_unique m (set_objects model rows s).
Proof.
  unfold rows_unique. destruct model, m; intros Hne H; try exact H;
    now contradiction Hne.
Qed.

(** Either action of [post_list] and [delete_list] keeps the list rows
    pairwise different and pointing to existing recipes. *)
Lemma post_list_keeps model u pk s m :
  references_valid s = true -> rows_unique m s ->
  references_valid (snd (post_list model u pk s)) = true /\
  rows_unique m (snd (post_list model u pk s)).
Proof.
  intros Hv Hu.
  destruct (post_list_store model u pk s) as [->|(Ha & He & ->)]; [auto|].
  unfold objects_create. split.
  - apply references_valid_set_objects; [exact Hv|].
    rewrite forallb_app, (@references_valid_objects model s Hv). simpl.
    now rewrite He.
  - assert (D : {m = model} + {m <> model}) by decide equality.
    destruct D as [->|Hne]; [|now apply rows_unique_set_other].
    unfold rows_unique. rewrite objects_set_objects, map_app. simpl.
    apply NoDup_app; [exact Hu | constructor; [simpl; tauto | constructor] |].
    intros x Hx [<-|[]]. revert Hx. now apply not_In_unmatched.
Qed.

Lemma delete_list_keeps model u pk s m :
  references_valid s = true -> rows_unique m s ->
  references_valid (snd (delete_list model u pk s)) = true /\
  rows_unique m (snd (delete_list model u pk s)).
Proof.
  intros Hv Hu.
  destruct (delete_list_store model u pk s) as [->| ->]; [auto|].
  unfold filter_delete. split.
  - apply references_valid_set_objects; [exact Hv|].
    apply forallb_filter_keep, references_valid_objects, Hv.
  - assert (D : {m = model} + {m <> model}) by decide equality.
    destruct D as [->|Hne]; [|now apply rows_unique_set_other].
    unfold rows_unique. rewrite objects_set_objects.
    now apply NoDup_map_filter.
Qed.

(** X5. The [favorite] and [shopping_cart] actions keep the store
    consistent, whatever the request: if no list holds the same (user,
    recipe) pair twice and every entry points to an existing recipe before
    the action, the same holds after it. *)
Theorem list_actions_keep_the_store_consistent (req : request) (pk : Z) (s : db) :
  references_valid s = true ->
  rows_unique Favorite s ->
  rows_unique ShoppingCart s ->
  (references_valid (snd (favorite req pk s)) = true /\
   rows_unique Favorite (snd (favorite req pk s)) /\
   rows_unique ShoppingCart (snd (favorite req pk s))) /\
  (references_valid (snd (shopping_cart req pk s)) = true /\
   rows_unique Favorite (snd (shopping_cart req pk s)) /\
   rows_unique ShoppingCart (snd (shopping_cart req pk s))).
Proof.
  intros Hv Hf Hc. split.
  - unfold favorite. destruct (negb (recipe_exists pk s)); [cbn [snd]; auto|].
    destruct (method req).
    + destruct (@delete_list_keeps Favorite (user req) pk s Favorite Hv Hf).
      destruct (@delete_list_keeps Favorite (user req) pk s ShoppingCart Hv Hc). auto.
    + destruct (@post_list_keeps Favorite (user req) pk s Favorite Hv Hf).
      destruct (@post_list_keeps Favorite (user req) pk s ShoppingCart Hv Hc). auto.
    + destruct (@delete_list_keeps Favorite (user req) pk s Favorite Hv Hf).
      destruct (@delete_list_keeps Favorite (user req) pk s ShoppingCart Hv Hc). auto.
  - unfold shopping_cart. destruct (method req).
    + destruct (@delete_list_keeps ShoppingCart (user req) pk s Favorite Hv Hf).
      destruct (@delete_list_keeps ShoppingCart (user req) pk s ShoppingCart Hv Hc). auto.
    + destruct (@post_list_keeps ShoppingCart (user req) pk s Favorite Hv Hf).
      destruct (@post_list_keeps ShoppingCart (user req) pk s ShoppingCart Hv Hc). auto.
    + destruct (@delete_list_keeps ShoppingCart (user req) pk s Favorite Hv Hf).
      destruct (@delete_list_keeps ShoppingCart (user req) pk s ShoppingCart Hv Hc). auto.
Qed.

Lemma sample_db_rows_unique model : rows_unique model sample_db.
Proof.
  destruct model; unfold rows_unique; simpl;
    repeat (constructor; [simpl; intros H; repeat (destruct H as [H|H]; try discriminate H); exact H|]);
    constructor.
Qed.

Lemma list_actions_keep_the_store_consistent_witness :
  references_valid sample_db = true /\
  rows_unique Favorite sample_db /\
  rows_unique ShoppingCart sample_db /\
  references_valid (snd (shopping_cart (mk_request POST 2) 10 sample_db)) = true /\
  rows_unique ShoppingCart (snd (shopping_cart (mk_request POST 2) 10 sample_db)).
Proof.
  split; [reflexivity|].
  split; [apply sample_db_rows_unique|]. split; [apply sample_db_rows_unique|].
  pose proof (@list_actions_keep_the_store_consistent (mk_request POST 2) 10
                sample_db eq_refl (sample_db_rows_unique Favorite)
                (sample_db_rows_unique ShoppingCart)) as (_ & H1 & _ & H3).
  split; [exact H1 | exact H3].
Defined.

(** ** The list actions and the shopping list *)

Lemma cart_line_items_ext u s s' :
  shopping_cart_table s' = shopping_cart_table s ->
  recipe_ingredient_table s' = recipe_ingredient_table s ->
  cart_line_items u s' = cart_line_items u s.
Proof. unfold cart_line_items. now intros -> ->. Qed.

Lemma favorite_tables req pk s :
  shopping_cart_table (snd (favorite req pk s)) = shopping_cart_table s /\
  recipe_ingredient_table (snd (favorite req pk s)) = recipe_ingredient_table s.
Proof.
  unfold favorite. destruct (negb (recipe_exists pk s)); [now split|].
  destruct (method req).
  - destruct (delete_list_store Favorite (user req) pk s) as [->| ->]; now split.
  - destruct (post_list_store Favorite (user req) pk s) as [->|(_ & _ & ->)];
      now split.
  - destruct (delete_list_store Favorite (user req) pk s) as [->| ->]; now split.
Qed.

Lemma shopping_cart_tables req pk s :
  favorite_table (snd (shopping_cart req pk s)) = favorite_table s.
Proof.
  unfold shopping_cart. destruct (method req).
  - now destruct (delete_list_store ShoppingCart (user req) pk s) as [->| ->].
  - now destruct (post_list_store ShoppingCart (user req) pk s)
      as [->|(_ & _ & ->)].
  - now destruct (delete_list_store ShoppingCart (user req) pk s) as [->| ->].
Qed.

(** X6. The two lists are independent: whatever the [favorite] action does,
    the line-items of every user's cart, and so the download the endpoint
    builds for any request, are what they were; and the [shopping_cart]
    action never changes the favorites. *)
Theorem favorites_and_cart_are_independent (repr_str : string -> string)
  (env : environ) (req req' : request) (pk : Z) (s : db) :
  (forall u, cart_line_items u (snd (favorite req pk s)) = cart_line_items u s) /\
  download_shopping_cart repr_str env req' (snd (favorite req pk s))
    = download_shopping_cart repr_str env req' s /\
  favorite_table (snd (shopping_cart req pk s)) = favorite_table s.
Proof.
  destruct (favorite_tables req pk s) as [Hc Hi].
  assert (H : forall u, cart_line_items u (snd (favorite req pk s))
                        = cart_line_items u s).
  { intros u. now apply cart_line_items_ext. }
  split; [exact H|]. split; [|apply shopping_cart_tables].
  unfold download_shopping_cart. now rewrite H.
Qed.

Lemma total_amount_app name a b :
  total_amount name (a ++ b) = total_amount name a + total_amount name b.
Proof.
  unfold total_amount, rows_named.
  rewrite filter_app, map_app, fold_right_app.
  induction (map item2 (filter (fun it => String.eqb (item0 it) name) a))
    as [|x l IH]; simpl; [reflexivity|]. rewrite IH. lia.
Qed.

(** The aggregated amount is the sum over the rows of that name. *)
Lemma aggregated_amount_total name rows :
  aggregated_amount name (aggregate rows) = total_amount name rows.
Proof.
  unfold aggregated_amount. destruct (aggregate_accumulate rows) as [_ Hg].
  rewrite Hg.
  destruct (accumulated item0 new_entry (fun it => iadd_amount (item2 it)) name rows)
    as [v|] eqn:A.
  - assert (Hin : In name (names rows)).
    { destruct (in_dec string_dec name (names rows)) as [H|H]; [exact H|].
      pose proof (proj2 (@accumulated_None _ _ item0 new_entry
                           (fun it => iadd_amount (item2 it)) name rows) H).
      congruence. }
    rewrite (@accumulated_expected name rows Hin) in A. now injection A as <-.
  - revert A. unfold accumulated, total_amount, rows_named, keyed.
    now destruct (filter (fun x => String.eqb (item0 x) name) rows).
Qed.

Lemma cart_rows_for_unmatched u pk ri cart :
  existsb (row_matches u pk) cart = false ->
  ri_recipe ri = pk ->
  cart_rows_for u ri cart = [].
Proof.
  intros H <-. unfold cart_rows_for.
  induction cart as [|c cart IH]; simpl in *; [reflexivity|].
  apply orb_false_iff in H. destruct H as [Hc Hl].
  unfold row_matches in Hc. rewrite andb_comm in Hc. rewrite Hc. auto.
Qed.

Lemma cart_rows_for_unique u pk ri cart :
  NoDup (map (fun r => (row_user r, row_recipe r)) cart) ->
  existsb (row_matches u pk) cart = true ->
  ri_recipe ri = pk ->
  List.length (cart_rows_for u ri cart) = 1%nat.
Proof.
  intros Hnd H <-. induction cart as [|c cart IH]; simpl in *; [discriminate|].
  inversion Hnd as [|? ? Hn Hnd']; subst.
  unfold row_matches at 1 in H. rewrite (andb_comm (row_user c =? u)) in H.
  destruct ((row_recipe c =? ri_recipe ri) && (row_user c =? u)) eqn:E.
  - simpl. f_equal.
    rewrite (@cart_rows_for_unmatched u (ri_recipe ri) ri cart); [reflexivity| |reflexivity].
    destruct (existsb (row_matches u (ri_recipe ri)) cart) eqn:X; [|reflexivity].
    exfalso. apply Hn. apply existsb_exists in X. destruct X as (r & Hr & Hm).
    apply row_matches_iff in Hm. destruct Hm as [Hu Hp].
    apply andb_true_iff in E. destruct E as [E1 E2].
    apply Z.eqb_eq in E1, E2. apply in_map_iff. exists r. split; [|exact Hr].
    congruence.
  - simpl in H. auto.
Qed.

Lemma cart_rows_for_deleted u pk ri cart :
  cart_rows_for u ri (filter (fun r => negb (row_matches u pk r)) cart)
  = if ri_recipe ri =? pk then [] else cart_rows_for u ri cart.
Proof.
  unfold cart_rows_for. induction cart as [|c cart IH]; simpl.
  - now destruct (ri_recipe ri =? pk).
  - unfold row_matches at 1.
    destruct (Z.eqb_spec (row_user c) u) as [Eu|Eu];
      destruct (Z.eqb_spec (row_recipe c) pk) as [Ep|Ep]; simpl; rewrite IH;
      destruct (Z.eqb_spec (ri_recipe ri) pk) as [Er|Er];
      destruct (Z.eqb_spec (row_recipe c) (ri_recipe ri)) as [Ec|Ec];
      destruct (Z.eqb_spec (row_user c) u) as [Eu'|Eu'];
      simpl; try reflexivity; congruence.
Qed.

Lemma cart_rows_for_other_user u u' pk ri cart :
  u' <> u ->
  cart_rows_for u' ri (filter (fun r => negb (row_matches u pk r)) cart)
  = cart_rows_for u' ri cart.
Proof.
  intros Hne. unfold cart_rows_for. induction cart as [|c cart IH]; simpl.
  - reflexivity.
  - unfold row_matches at 1.
    destruct (Z.eqb_spec (row_user c) u) as [Eu|Eu];
      destruct (Z.eqb_spec (row_recipe c) pk) as [Ep|Ep]; simpl; rewrite IH;
      destruct (Z.eqb_spec (row_user c) u') as [Eu'|Eu'];
      rewrite ?andb_false_r; try reflexivity; congruence.
Qed.

Lemma cart_line_items_unfold u s :
  cart_line_items u s
  = flat_map (fun ri => map (fun _ => ri_item ri)
                          (cart_rows_for u ri (shopping_cart_table s)))
             (recipe_ingredient_table s).
Proof. reflexivity. Qed.

Lemma map_const_one {A B : Type} (x : B) (l : list A) :
  List.length l = 1%nat -> map (fun _ => x) l = [x].
Proof.
  destruct l as [|a [|b l]]; simpl; intros H; try discriminate. reflexivity.
Qed.

Lemma cart_rows_for_created u u' pk ri cart :
  cart_rows_for u' ri (cart ++ [mk_row u pk])
  = cart_rows_for u' ri cart
    ++ (if (pk =? ri_recipe ri) && (u =? u') then [mk_row u pk] else []).
Proof. unfold cart_rows_for. now rewrite filter_app. Qed.

Lemma total_amount_cons name it rows :
  total_amount name (it :: rows) = total_amount name [it] + total_amount name rows.
Proof. apply (total_amount_app name [it] rows). Qed.

Lemma total_created name u pk cart (l : list recipe_ingredient) :
  total_amount name
    (flat_map (fun ri => map (fun _ => ri_item ri)
                           (cart_rows_for u ri (cart ++ [mk_row u pk]))) l)
  = total_amount name
      (flat_map (fun ri => map (fun _ => ri_item ri) (cart_rows_for u ri cart)) l)
    + total_amount name (map ri_item (filter (fun ri => ri_recipe ri =? pk) l)).
Proof.
  induction l as [|ri l IH]; [reflexivity|].
  cbn [flat_map filter]. rewrite !total_amount_app, IH, cart_rows_for_created.
  rewrite Z.eqb_refl, andb_true_r, map_app, total_amount_app, (Z.eqb_sym pk).
  destruct (ri_recipe ri =? pk); cbn [map].
  - set (one := total_amount name [ri_item ri]).
    rewrite total_amount_cons. subst one. lia.
  - change (total_amount name []) with 0. lia.
Qed.

Lemma total_deleted name u pk cart (l : list recipe_ingredient) :
  NoDup (map (fun r => (row_user r, row_recipe r)) cart) ->
  existsb (row_matches u pk) cart = true ->
  total_amount name
    (flat_map (fun ri => map (fun _ => ri_item ri) (cart_rows_for u ri cart)) l)
  = total_amount name
      (flat_map (fun ri => map (fun _ => ri_item ri)
                             (cart_rows_for u ri
                                (filter (fun r => negb (row_matches u pk r)) cart)))
                l)
    + total_amount name (map ri_item (filter (fun ri => ri_recipe ri =? pk) l)).
Proof.
  intros Hnd Hin. induction l as [|ri l IH]; [reflexivity|].
  cbn [flat_map filter]. rewrite !total_amount_app, IH, cart_rows_for_deleted.
  destruct (Z.eqb_spec (ri_recipe ri) pk) as [E|E]; cbn [map].
  - rewrite (@map_const_one _ _ (ri_item ri) _
               (@cart_rows_for_unique u pk ri cart Hnd Hin E)).
    change (total_amount name []) with 0.
    set (one := total_amount name [ri_item ri]).
    rewrite total_amount_cons. subst one. lia.
  - lia.
Qed.

(** X7. Adding a recipe to the cart adds its quantities to the shopping
    list: after a successful POST of the [shopping_cart] action, the
    aggregated amount of every ingredient name is what it was plus the sum
    of that recipe's amounts for the name, and the line-items of the other
    users are what they were. *)
Theorem adding_a_recipe_adds_its_amounts (u pk : Z) (s : db) :
  filter_exists ShoppingCart u pk s = false ->
  recipe_exists pk s = true ->
  let out := shopping_cart (mk_request POST u) pk s in
  fst out = Ok (Response (RecipeListData pk) 201) /\
  (forall name,
     aggregated_amount name (aggregate (cart_line_items u (snd out)))
     = aggregated_amount name (aggregate (cart_line_items u s))
       + total_amount name (recipe_line_items pk s)) /\
  (forall u', u' <> u -> cart_line_items u' (snd out) = cart_line_items u' s).
Proof.
  intros Ha He out. subst out. unfold shopping_cart. cbn [method user].
  rewrite (post_list_created _ _ _ _ Ha He). cbn [fst snd].
  split; [reflexivity|]. split.
  - intros name. rewrite !aggregated_amount_total, !cart_line_items_unfold.
    unfold recipe_line_items. apply total_created.
  - intros u' Hne. rewrite !cart_line_items_unfold.
    cbn [objects_create set_objects objects shopping_cart_table
         recipe_ingredient_table].
    apply flat_map_ext. intros ri. rewrite cart_rows_for_created.
    destruct (Z.eqb_spec u u') as [E|_]; [now contradiction Hne|].
    now rewrite andb_false_r, app_nil_r.
Qed.

(** User 2 adds recipe 10: 200 g of flour and 3 eggs appear. *)
Lemma adding_a_recipe_adds_its_amounts_witness :
  filter_exists ShoppingCart 2 10 sample_db = false /\
  recipe_exists 10 sample_db = true /\
  aggregated_amount "flour"
    (aggregate (cart_line_items 2
                  (snd (shopping_cart (mk_request POST 2) 10 sample_db))))
  = aggregated_amount "flour" (aggregate (cart_line_items 2 sample_db))
    + total_amount "flour" (recipe_line_items 10 sample_db) /\
  total_amount "flour" (recipe_line_items 10 sample_db) = 200.
Proof.
  split; [reflexivity|]. split; [reflexivity|]. split; [|reflexivity].
  exact (proj1 (proj2 (@adding_a_recipe_adds_its_amounts 2 10 sample_db
                         eq_refl eq_refl)) "flour"%string).
Defined.

(** X8. Removing a recipe from the cart takes its quantities off the
    shopping list: when the cart rows are pairwise different, after a
    successful DELETE of the [shopping_cart] action the aggregated amount of
    every ingredient name is what it was minus the sum of that recipe's
    amounts for the name, and the line-items of the other users are what
    they were. *)
Theorem removing_a_recipe_removes_its_amounts (u pk : Z) (s : db) :
  rows_unique ShoppingCart s ->
  filter_exists ShoppingCart u pk s = true ->
  let out := shopping_cart (mk_request DELETE u) pk s in
  fst out = Ok (Response NoData 204) /\
  (forall name,
     aggregated_amount name (aggregate (cart_line_items u (snd out)))
     = aggregated_amount name (aggregate (cart_line_items u s))
       - total_amount name (recipe_line_items pk s)) /\
  (forall u', u' <> u -> cart_line_items u' (snd out) = cart_line_items u' s).
Proof.
  intros Hu Ha out. subst out. unfold shopping_cart. cbn [method user].
  rewrite (delete_list_deleted _ _ _ _ Ha). cbn [fst snd].
  split; [reflexivity|]. split.
  - intros name. rewrite !aggregated_amount_total, !cart_line_items_unfold.
    unfold recipe_line_items.
    cbn [filter_delete set_objects objects shopping_cart_table
         recipe_ingredient_table].
    rewrite (@total_deleted name u pk (shopping_cart_table s)
               (recipe_ingredient_table s) Hu Ha).
    lia.
  - intros u' Hne. rewrite !cart_line_items_unfold.
    cbn [filter_delete set_objects objects shopping_cart_table
         recipe_ingredient_table].
    apply flat_map_ext. intros ri. now rewrite cart_rows_for_other_user.
Qed.

(** User 1 removes recipe 10: of 500 g of flour 300 g remain. *)
Lemma removing_a_recipe_removes_its_amounts_witness :
  rows_unique ShoppingCart sample_db /\
  filter_exists ShoppingCart 1 10 sample_db = true /\
  aggregated_amount "flour"
    (aggregate (cart_line_items 1
                  (snd (shopping_cart (mk_request DELETE 1) 10 sample_db))))
  = aggregated_amount "flour" (aggregate (cart_line_items 1 sample_db))
    - total_amount "flour" (recipe_line_items 10 sample_db) /\
  aggregated_amount "flour"
    (aggregate (cart_line_items 1
                  (snd (shopping_cart (mk_request DELETE 1) 10 sample_db))))
  = 300.
Proof.
  split; [apply sample_db_rows_unique|]. split; [reflexivity|].
  split; [|reflexivity].
  exact (proj1 (proj2 (@removing_a_recipe_removes_its_amounts 1 10 sample_db
                         (sample_db_rows_unique ShoppingCart) eq_refl))
           "flour"%string).
Defined.


(* ===================================================================== *)
(** * Further properties of the aggregation *)
(* ===================================================================== *)

From Stdlib Require Import Permutation.

Lemma total_amount_perm name rows rows' :
  Permutation rows rows' -> total_amount name rows = total_amount name rows'.
Proof.
  induction 1 as [|x l l' _ IH|x y l|l l' l'' _ IH1 _ IH2].
  - reflexivity.
  - now rewrite (total_amount_cons name x l), (total_amount_cons name x l'), IH.
  - rewrite (total_amount_cons name y (x :: l)), (total_amount_cons name x l),
      (total_amount_cons name x (y :: l)), (total_amount_cons name y l). lia.
  - now rewrite IH1.
Qed.

(** X9. The amounts do not depend on the order in which the query returns
    the rows: for two orders of the same rows the aggregated amount of every
    name is the same, and the two mappings have the same keys, possibly in
    another order. *)
Theorem aggregated_amounts_ignore_row_order (rows rows' : list line_item) :
  Permutation rows rows' ->
  (forall name,
     aggregated_amount name (aggregate rows)
     = aggregated_amount name (aggregate rows')) /\
  Permutation (PyDict.keys (aggregate rows)) (PyDict.keys (aggregate rows')).
Proof.
  intros Hp. split.
  - intros name. rewrite !aggregated_amount_total. now apply total_amount_perm.
  - destruct (aggregate_accumulate rows) as [-> _].
    destruct (aggregate_accumulate rows') as [-> _].
    apply NoDup_Permutation; try apply first_seen_NoDup.
    intros x. rewrite !first_seen_In. unfold names.
    split; apply Permutation_in; [|symmetry]; now apply Permutation_map.
Qed.

(** The spec's example with recipe B retrieved before recipe A. *)
Lemma aggregated_amounts_ignore_row_order_witness :
  Permutation
    [("flour", "g", 200); ("eggs", "pcs", 3)]
    [("eggs", "pcs", 3); ("flour", "g", 200)] /\
  aggregated_amount "flour" (aggregate [("flour", "g", 200); ("eggs", "pcs", 3)])
  = aggregated_amount "flour" (aggregate [("eggs", "pcs", 3); ("flour", "g", 200)]).
Proof.
  split; [apply perm_swap|].
  exact (proj1 (@aggregated_amounts_ignore_row_order
                  [("flour", "g", 200); ("eggs", "pcs", 3)]
                  [("eggs", "pcs", 3); ("flour", "g", 200)]
                  (perm_swap _ _ _)) "flour"%string).
Defined.

Lemma setitem_new {V : Type} k (v : V) d :
  PyDict.contains k d = false -> PyDict.setitem k v d = d ++ [(k, v)].
Proof.
  induction d as [|[k' v'] d IH]; simpl; [reflexivity|].
  destruct (String.eqb k k'); [discriminate|]. intros H. now rewrite IH.
Qed.

(** Rows with pairwise different names are entered one by one, in order. *)
Lemma fold_aggregate_distinct l : forall d,
  NoDup (names l) ->
  (forall n, In n (names l) -> ~ In n (PyDict.keys d)) ->
  fold_left aggregate_step l d
  = d ++ map (fun it => (item0 it, new_entry it)) l.
Proof.
  induction l as [|it l IH]; intros d Hnd Hd; simpl.
  - now rewrite app_nil_r.
  - inversion Hnd as [|? ? Hn Hnd']; subst.
    assert (Hc : PyDict.contains (item0 it) d = false).
    { apply PyDictFacts.contains_false_keys. apply Hd. now left. }
    unfold aggregate_step at 2. rewrite Hc. cbn [negb].
    rewrite setitem_new by exact Hc. rewrite IH.
    + now rewrite <- app_assoc.
    + exact Hnd'.
    + intros n Hin. unfold PyDict.keys. rewrite map_app, in_app_iff. simpl.
      intros [H|[H|[]]].
      * revert H. apply Hd. now right.
      * subst n. contradiction.
Qed.

Lemma names_dict_rows d : names (dict_rows d) = PyDict.keys d.
Proof.
  unfold names, dict_rows, PyDict.keys. rewrite map_map. reflexivity.
Qed.

(** X10. Aggregating is idempotent: the entries of an aggregated mapping,
    read back as rows and aggregated again, give the same mapping, in the
    same order. *)
Theorem aggregate_of_aggregate (rows : list line_item) :
  aggregate (dict_rows (aggregate rows)) = aggregate rows.
Proof.
  unfold aggregate at 1. rewrite fold_aggregate_distinct.
  - unfold dict_rows. rewrite map_map. simpl.
    induction (aggregate rows) as [|[k [u a]] d IH]; simpl; [reflexivity|].
    now rewrite IH.
  - rewrite names_dict_rows. destruct (aggregate_accumulate rows) as [-> _].
    apply first_seen_NoDup.
  - intros n _ [].
Qed.

Lemma filter_all {A : Type} (p : A -> bool) l :
  (forall x, In x l -> p x = true) -> filter p l = l.
Proof.
  induction l as [|x l IH]; simpl; intros H; [reflexivity|].
  rewrite (H x) by now left. f_equal. apply IH. intros y Hy. apply H. now right.
Qed.

Lemma filter_full_length {A : Type} (p : A -> bool) l :
  List.length (filter p l) = List.length l -> forall x, In x l -> p x = true.
Proof.
  induction l as [|y l IH]; simpl; intros H x Hx; [contradiction|].
  pose proof (filter_length_le p l) as Hle.
  destruct (p y) eqn:E; simpl in H.
  - destruct Hx as [<-|Hx]; [exact E|]. apply IH; [lia | exact Hx].
  - lia.
Qed.

Lemma first_seen_length l : (List.length (first_seen l) <= List.length l)%nat.
Proof.
  induction l as [|a l IH]; simpl; [lia|].
  pose proof (filter_length_le (fun y => negb (String.eqb y a)) (first_seen l)).
  lia.
Qed.

Lemma first_seen_full_length l :
  List.length (first_seen l) = List.length l <-> NoDup l.
Proof.
  induction l as [|a l IH]; simpl.
  - split; [constructor | reflexivity].
  - pose proof (filter_length_le (fun y => negb (String.eqb y a)) (first_seen l))
      as Hf.
    pose proof (first_seen_length l) as Hl. split.
    + intros H. constructor.
      * intros Hin. rewrite <- first_seen_In in Hin.
        assert (E : List.length (filter (fun y => negb (String.eqb y a))
                                   (first_seen l))
                    = List.length (first_seen l)) by lia.
        pose proof (filter_full_length _ _ E a Hin) as T.
        cbv beta in T. now rewrite String.eqb_refl in T.
      * apply IH. lia.
    + intros H. inversion H as [|? ? Hn Hnd]; subst. f_equal.
      rewrite filter_all.
      * now apply IH.
      * intros x Hx. rewrite first_seen_In in Hx. apply negb_true_iff.
        apply String.eqb_neq. congruence.
Qed.

(** X11. The mapping never has more entries than there are rows; it has as
    many exactly when no name repeats among the rows, and it is empty
    exactly when there is no row. *)
Theorem aggregate_merges_exactly_repeated_names (rows : list line_item) :
  (List.length (aggregate rows) <= List.length rows)%nat /\
  (List.length (aggregate rows) = List.length rows <-> NoDup (names rows)) /\
  (aggregate rows = [] <-> rows = []).
Proof.
  assert (Hlen : List.length (aggregate rows)
                 = List.length (first_seen (names rows))).
  { destruct (aggregate_accumulate rows) as [<- _].
    unfold PyDict.keys. now rewrite length_map. }
  assert (Hn : List.length (names rows) = List.length rows)
    by (unfold names; apply length_map).
  split; [rewrite Hlen, <- Hn; apply first_seen_length|]. split.
  - rewrite Hlen, <- Hn. apply first_seen_full_length.
  - split.
    + intros E. rewrite E in Hlen. destruct rows as [|it rows]; [reflexivity|].
      simpl in Hlen. discriminate.
    + now intros ->.
Qed.


(* ===================================================================== *)
(** * Further properties of the renderer *)
(* ===================================================================== *)

(** X12. [convert_pdf] fails for one reason only: it returns a buffer
    exactly when the file "./fonts/{font}.ttf" can be loaded, and otherwise
    raises the [TTFError] for that path; the mapping, the title, the size and
    the fonts registered before play no part, and [setFont] never raises. *)
Theorem convert_pdf_fails_only_on_the_font (env : environ)
  (data : ingredient_dict) (title font : string) (font_size : Z) :
  (font_files env ("./fonts/" ++ font ++ ".ttf")%string = true <->
   exists b, convert_pdf env data title font font_size = Ok (PyBytesIO b)) /\
  (font_files env ("./fonts/" ++ font ++ ".ttf")%string = false <->
   convert_pdf env data title font font_size
   = Raise (TTFError ("./fonts/" ++ font ++ ".ttf")%string)) /\
  (forall e, convert_pdf env data title font font_size = Raise e ->
     e = TTFError ("./fonts/" ++ font ++ ".ttf")%string).
Proof.
  rewrite convert_pdf_run. unfold font_path.
  destruct (font_files env ("./fonts/" ++ font ++ ".ttf")%string).
  - split; [split; [eauto | reflexivity]|].
    split; [split; discriminate | discriminate].
  - split; [split; [discriminate | intros [b H]; discriminate]|].
    split; [split; reflexivity|]. now intros e [= <-].
Qed.

Lemma filter_show_page_body entries : forall i h,
  filter is_show_page (body_ops entries i h) = [].
Proof.
  induction entries as [|[name inf] rest IH]; intros i h; simpl; auto.
Qed.

Lemma last_app_cons {A : Type} (l : list A) x (d : A) : last (l ++ [x]) d = x.
Proof.
  induction l as [|y l IH]; [reflexivity|].
  simpl. destruct (l ++ [x]) eqn:E; [now destruct l | exact IH].
Qed.

(** X13. The renderer never starts a second page: whatever the number of
    entries, the document it returns holds exactly one [showPage], as its
    last operation. *)
Theorem convert_pdf_draws_one_page (env : environ) (data : ingredient_dict)
  (title font : string) (font_size : Z) :
  font_files env (font_path font) = true ->
  exists b,
    convert_pdf env data title font font_size = Ok (PyBytesIO b) /\
    List.length (filter is_show_page (getvalue b)) = 1%nat /\
    last (getvalue b) (SetTitle title) = ShowPage.
Proof.
  intros Hfont. rewrite convert_pdf_run, Hfont. eexists.
  split; [reflexivity|]. cbn [getvalue]. unfold document, header_ops, footer_ops.
  split.
  - rewrite !filter_app, filter_show_page_body. reflexivity.
  - rewrite !app_assoc.
    change [Line 50 (770 - 30 * Z.of_nat (List.length data)) 550
              (770 - 30 * Z.of_nat (List.length data));
            SetFont font (font_size - 4);
            DrawString 50 (770 - 30 * Z.of_nat (List.length data) - 10)
              (signature_line (now_year env)); ShowPage]
      with ([Line 50 (770 - 30 * Z.of_nat (List.length data)) 550
               (770 - 30 * Z.of_nat (List.length data));
             SetFont font (font_size - 4);
             DrawString 50 (770 - 30 * Z.of_nat (List.length data) - 10)
               (signature_line (now_year env))] ++ [ShowPage]).
    rewrite app_assoc. apply last_app_cons.
Qed.

Lemma convert_pdf_draws_one_page_witness :
  font_files sample_environ (font_path "Arial") = true /\
  exists b,
    convert_pdf sample_environ
      [("flour", mk_info "g" 500); ("eggs", mk_info "pcs" 4)]
      "Список покупок" "Arial" 12 = Ok (PyBytesIO b) /\
    List.length (filter is_show_page (getvalue b)) = 1%nat /\
    last (getvalue b) (SetTitle "Список покупок") = ShowPage.
Proof.
  split; [reflexivity|].
  exact (@convert_pdf_draws_one_page sample_environ
           [("flour", mk_info "g" 500); ("eggs", mk_info "pcs" 4)]
           "Список покупок" "Arial" 12 eq_refl).
Defined.

Lemma above_bottom_app a b :
  above_bottom (a ++ b) = above_bottom a && above_bottom b.
Proof. apply forallb_app. Qed.

Lemma above_bottom_body entries : forall i h,
  0 <= h - 30 * Z.of_nat (List.length entries) ->
  above_bottom (body_ops entries i h) = true.
Proof.
  induction entries as [|[name inf] rest IH]; intros i h Hh; [reflexivity|].
  cbn [body_ops List.length] in *. rewrite Nat2Z.inj_succ in Hh.
  unfold above_bottom in *. cbn [forallb op_heights].
  rewrite IH by lia. rewrite andb_true_r, andb_true_r. apply Z.leb_le. lia.
Qed.

(** X14. Where the list leaves the page: the document stays at or above
    the bottom edge (vertical position 0) exactly when the mapping has at
    most 25 entries; from the 26th entry on, the signature, and then the
    rule and the lines, are drawn at negative positions. *)
Theorem document_fits_up_to_25_entries (env : environ) (data : ingredient_dict)
  (title font : string) (font_size : Z) :
  font_files env (font_path font) = true ->
  exists b,
    convert_pdf env data title font font_size = Ok (PyBytesIO b) /\
    (above_bottom (getvalue b) = true <-> (List.length data <= 25)%nat).
Proof.
  intros Hfont. rewrite convert_pdf_run, Hfont. eexists.
  split; [reflexivity|]. cbn [getvalue]. unfold document.
  rewrite !above_bottom_app. unfold header_ops, footer_ops, PyDict.items.
  set (n := Z.of_nat (List.length data)).
  assert (Hn : 0 <= n) by apply Nat2Z.is_nonneg.
  split.
  - intros H. apply andb_true_iff in H. destruct H as [_ H].
    apply andb_true_iff in H. destruct H as [_ H].
    unfold above_bottom in H. cbn [forallb op_heights] in H.
    rewrite !andb_true_r in H. apply andb_true_iff in H. destruct H as [_ H].
    apply Z.leb_le in H. lia.
  - intros H. apply andb_true_iff. split; [reflexivity|].
    apply andb_true_iff. split.
    + apply above_bottom_body. fold n. lia.
    + unfold above_bottom. cbn [forallb op_heights]. rewrite !andb_true_r.
      apply andb_true_iff. split; [apply andb_true_iff; split|];
        apply Z.leb_le; lia.
Qed.

(** Two entries fit. *)
Lemma document_fits_up_to_25_entries_witness :
  font_files sample_environ (font_path "Arial") = true /\
  exists b,
    convert_pdf sample_environ
      [("flour", mk_info "g" 500); ("eggs", mk_info "pcs" 4)]
      "Список покупок" "Arial" 12 = Ok (PyBytesIO b) /\
    (above_bottom (getvalue b) = true <->
     (List.length [("flour", mk_info "g" 500); ("eggs", mk_info "pcs" 4)] <= 25)%nat).
Proof.
  split; [reflexivity|].
  exact (@document_fits_up_to_25_entries sample_environ
           [("flour", mk_info "g" 500); ("eggs", mk_info "pcs" 4)]
           "Список покупок" "Arial" 12 eq_refl).
Defined.


(* ===================================================================== *)
(** * The other methods of the view sets *)
(* ===================================================================== *)

(** X15. [get_serializer_class] answers [FavoriteSerializer] for the action
    names 'favorite' and 'cart' only; among the actions of the view set that
    is 'favorite' alone, since no action is named 'cart': 'shopping_cart'
    and 'download_shopping_cart' get [RecipeCreateSerializer], as does a
    request with no action. *)
Theorem favorite_serializer_for_favorite_only :
  (forall a, get_serializer_class (Some a) = FavoriteSerializer <->
             a = "favorite"%string \/ a = "cart"%string) /\
  (forall a, In a recipe_viewset_actions ->
     (get_serializer_class (Some a) = FavoriteSerializer <-> a = "favorite"%string)) /\
  get_serializer_class None = RecipeCreateSerializer.
Proof.
  assert (G : forall a, get_serializer_class (Some a) = FavoriteSerializer <->
                        a = "favorite"%string \/ a = "cart"%string).
  { intros a. unfold get_serializer_class.
    destruct (String.eqb_spec a "favorite") as [->|H1]; [simpl; tauto|].
    destruct (String.eqb_spec a "cart") as [->|H2]; simpl; [tauto|].
    split; [discriminate | tauto]. }
  split; [exact G|]. split; [|reflexivity].
  intros a Hin. rewrite G. split; [|tauto].
  intros [H|H]; [exact H|]. subst a. exfalso. simpl in Hin.
  repeat (destruct Hin as [Hin|Hin]; [discriminate Hin|]). exact Hin.
Qed.

(** ** [get_queryset] *)

Lemma distinct_In x l : In x (distinct l) <-> In x l.
Proof.
  induction l as [|a l IH]; simpl; [tauto|].
  rewrite filter_In, IH, negb_true_iff, Z.eqb_neq.
  destruct (Z.eq_dec a x) as [->|Hne]; [tauto|].
  split; [tauto|]. intros [H|H]; [tauto|]. right. split; [exact H|congruence].
Qed.

Lemma distinct_NoDup l : NoDup (distinct l).
Proof.
  induction l as [|a l IH]; simpl; constructor.
  - rewrite filter_In, Z.eqb_refl. simpl. intros [_ H]. discriminate.
  - now apply NoDup_filter.
Qed.

Lemma filter_tags_slug_in_In tt tags queryset r :
  In r (filter_tags_slug_in tt tags queryset) <->
  In r queryset /\ tagged tt tags r = true.
Proof.
  unfold filter_tags_slug_in, tagged. rewrite in_flat_map. split.
  - intros (pk & Hpk & Hin). apply in_map_iff in Hin.
    destruct Hin as (rt & <- & Hrt). split; [exact Hpk|].
    apply existsb_exists. exists rt. apply filter_In in Hrt. tauto.
  - intros [Hr Ht]. exists r. split; [exact Hr|].
    apply existsb_exists in Ht. destruct Ht as (rt & Hrt & Hc).
    apply in_map_iff. exists rt. split; [reflexivity|].
    apply filter_In. tauto.
Qed.

Lemma filter_idem {A : Type} (p : A -> bool) l :
  filter p (filter p l) = filter p l.
Proof.
  apply filter_all. intros x Hx. apply filter_In in Hx. tauto.
Qed.

Lemma distinct_copies_app (pk : Z) {A : Type} (copies : list A) rest :
  distinct (map (fun _ => pk) copies ++ rest)
  = match copies with
    | [] => distinct rest
    | _ :: _ => pk :: filter (fun y => negb (y =? pk)) (distinct rest)
    end.
Proof.
  induction copies as [|c copies IH]; [reflexivity|].
  cbn [map app distinct]. rewrite IH. destruct copies; [reflexivity|].
  cbn [filter]. now rewrite Z.eqb_refl, filter_idem.
Qed.

Lemma existsb_filter_nil {A : Type} (p : A -> bool) l :
  existsb p l = match filter p l with [] => false | _ :: _ => true end.
Proof.
  induction l as [|x l IH]; simpl; [reflexivity|].
  destruct (p x); simpl; [reflexivity | exact IH].
Qed.

(** On a table without repeated keys, the join followed by [distinct] is
    the filter "has one of the tags". *)
Lemma distinct_join_is_filter tt tags queryset :
  NoDup queryset ->
  distinct (filter_tags_slug_in tt tags queryset)
  = filter (tagged tt tags) queryset.
Proof.
  unfold filter_tags_slug_in. induction queryset as [|pk q IH]; [reflexivity|].
  intros Hnd. inversion Hnd as [|? ? Hn Hnd']; subst.
  cbn [flat_map filter]. rewrite distinct_copies_app, (IH Hnd').
  assert (T : tagged tt tags pk
              = match filter (fun rt => (fst rt =? pk) && mem_string (snd rt) tags) tt
                with [] => false | _ :: _ => true end)
    by apply existsb_filter_nil.
  rewrite T.
  destruct (filter (fun rt => (fst rt =? pk) && mem_string (snd rt) tags) tt);
    [reflexivity|].
  f_equal. apply filter_all. intros x Hx. apply filter_In in Hx.
  apply negb_true_iff, Z.eqb_neq. intros ->. tauto.
Qed.

Lemma filter_andb {A : Type} (p q : A -> bool) l :
  filter p (filter q l) = filter (fun x => q x && p x) l.
Proof.
  induction l as [|x l IH]; simpl; [reflexivity|].
  destruct (q x); simpl; [destruct (p x); now rewrite IH | exact IH].
Qed.

Lemma recipe_ids_of_In model author s r :
  In r (recipe_ids_of model author s) <-> filter_exists model author r s = true.
Proof.
  unfold recipe_ids_of, filter_exists. rewrite in_map_iff, existsb_exists.
  split.
  - intros (row & <- & Hrow). apply filter_In in Hrow. destruct Hrow as [Hin Hu].
    exists row. split; [exact Hin|]. unfold row_matches.
    now rewrite Hu, Z.eqb_refl.
  - intros (row & Hin & Hm). apply row_matches_iff in Hm. destruct Hm as [Hu Hr].
    exists row. split; [exact Hr|]. apply filter_In. split; [exact Hin|].
    now apply Z.eqb_eq.
Qed.

Lemma filter_pk_in_In ids queryset r :
  In r (filter_pk_in ids queryset) <-> In r queryset /\ In r ids.
Proof.
  unfold filter_pk_in. rewrite filter_In, existsb_exists. split.
  - intros [Hq (x & Hx & E)]. apply Z.eqb_eq in E. now subst.
  - intros [Hq Hi]. split; [exact Hq|]. exists r. split; [exact Hi|].
    apply Z.eqb_refl.
Qed.

(** X16. What [get_queryset] returns: a recipe is in the result exactly
    when it is in the recipe table, has one of the requested tags (if any
    tag is requested), and is in the user's favorites if [is_favorited] is
    given a non-empty value, else in the user's cart if
    [is_in_shopping_cart] is (so [is_favorited] takes precedence and any
    non-empty value, '0' included, switches the filter on). When the recipe
    keys are unique, the result lists each such recipe once, in table
    order, although the tag filter is a join that yields a recipe once per
    matching tag. *)
Theorem get_queryset_selects (tt : tag_table) (author : Z) (qp : query_params)
  (s : db) :
  (forall r,
     In r (get_queryset tt author qp s) <->
     In r (recipe_table s) /\
     (qp_tags qp = [] \/ tagged tt (qp_tags qp) r = true) /\
     (if truth_param (qp_is_favorited qp)
      then filter_exists Favorite author r s = true
      else if truth_param (qp_is_in_shopping_cart qp)
           then filter_exists ShoppingCart author r s = true
           else True)) /\
  (NoDup (recipe_table s) ->
   get_queryset tt author qp s
   = filter
       (fun r =>
          (match qp_tags qp with [] => true | _ :: _ => tagged tt (qp_tags qp) r end)
          && (if truth_param (qp_is_favorited qp)
              then filter_exists Favorite author r s
              else if truth_param (qp_is_in_shopping_cart qp)
                   then filter_exists ShoppingCart author r s
                   else true))
       (recipe_table s)).
Proof.
  split.
  - intros r. unfold get_queryset. cbv zeta.
    set (q := match qp_tags qp with
              | [] => recipe_table s
              | _ :: _ => distinct (filter_tags_slug_in tt (qp_tags qp) (recipe_table s))
              end).
    assert (Hq : In r q <->
                 In r (recipe_table s) /\
                 (qp_tags qp = [] \/ tagged tt (qp_tags qp) r = true)).
    { subst q. destruct (qp_tags qp) as [|t ts].
      - split; [auto | tauto].
      - rewrite distinct_In, filter_tags_slug_in_In.
        split; [tauto|]. intros [H [E|E]]; [discriminate | tauto]. }
    destruct (truth_param (qp_is_favorited qp)).
    + rewrite filter_pk_in_In, recipe_ids_of_In, Hq. tauto.
    + destruct (truth_param (qp_is_in_shopping_cart qp)).
      * rewrite filter_pk_in_In, recipe_ids_of_In, Hq. tauto.
      * rewrite Hq. tauto.
  - intros Hnd. unfold get_queryset. cbv zeta.
    assert (Hq : match qp_tags qp with
                 | [] => recipe_table s
                 | _ :: _ => distinct (filter_tags_slug_in tt (qp_tags qp)
                                         (recipe_table s))
                 end
                 = filter (fun r => match qp_tags qp with
                                    | [] => true
                                    | _ :: _ => tagged tt (qp_tags qp) r
                                    end) (recipe_table s)).
    { destruct (qp_tags qp) as [|t ts].
      - symmetry. now apply filter_all.
      - now apply distinct_join_is_filter. }
    rewrite Hq.
    assert (Hids : forall model l,
              filter_pk_in (recipe_ids_of model author s) l
              = filter (fun r => filter_exists model author r s) l).
    { intros model l. unfold filter_pk_in. apply filter_ext. intros r.
      destruct (filter_exists model author r s) eqn:E.
      - apply recipe_ids_of_In in E. apply existsb_exists. exists r.
        split; [exact E | apply Z.eqb_refl].
      - destruct (existsb (Z.eqb r) (recipe_ids_of model author s)) eqn:X;
          [|reflexivity].
        apply existsb_exists in X. destruct X as (x & Hx & Ex).
        apply Z.eqb_eq in Ex. subst x. apply recipe_ids_of_In in Hx. congruence. }
    destruct (truth_param (qp_is_favorited qp));
      [|destruct (truth_param (qp_is_in_shopping_cart qp))];
      rewrite ?Hids, ?filter_andb; apply filter_ext; intros r;
      now rewrite ?andb_true_r.
Qed.

(** Recipe 10 carries both requested tags and is listed once; with
    [is_favorited=0] only the favorite of user 1 is left, whatever
    [is_in_shopping_cart] says. *)
Lemma get_queryset_selects_witness :
  NoDup (recipe_table sample_db) /\
  get_queryset sample_tags 1
    (mk_query_params ["breakfast"; "dinner"] None None) sample_db = [10; 11] /\
  get_queryset sample_tags 1
    (mk_query_params ["breakfast"; "dinner"] (Some "0") (Some "1")) sample_db
  = [10].
Proof.
  assert (Hnd : NoDup (recipe_table sample_db)).
  { simpl. repeat (constructor;
      [simpl; intros H; repeat (destruct H as [H|H]; try discriminate H); exact H|]).
    constructor. }
  split; [exact Hnd|]. split.
  - rewrite (proj2 (@get_queryset_selects sample_tags 1
                      (mk_query_params ["breakfast"; "dinner"] None None)
                      sample_db) Hnd).
    reflexivity.
  - rewrite (proj2 (@get_queryset_selects sample_tags 1
                      (mk_query_params ["breakfast"; "dinner"] (Some "0") (Some "1"))
                      sample_db) Hnd).
    reflexivity.
Defined.

(** ** [IngredientViewSet.finalize_response] *)

Section FinalizeFacts.
Variable super_finalize_response : response -> response.

Lemma mem_string_GET m : mem_string m ["GET"] = String.eqb m "GET".
Proof. unfold mem_string. simpl. apply orb_false_r. Qed.

(** X17. The ingredient view set is read-only at its last step: for every
    method other than GET (HEAD and OPTIONS included) the response handed to
    the framework has status 405, whatever the handler answered; a response
    that already has status 405 is handed over as it is, and so is every
    response to a GET. With a framework step that keeps the status, the
    final status is 405 exactly when the method is not GET or the handler
    answered 405. *)
Theorem ingredient_viewset_is_read_only (request_method : string)
  (resp : response) :
  (forall r, status_code (super_finalize_response r) = status_code r) ->
  (request_method <> "GET"%string ->
     status_code (finalize_response super_finalize_response request_method resp)
     = 405) /\
  (request_method = "GET"%string \/ status_code resp = 405 ->
     finalize_response super_finalize_response request_method resp
     = super_finalize_response resp) /\
  (status_code (finalize_response super_finalize_response request_method resp)
   = 405 <->
   request_method <> "GET"%string \/ status_code resp = 405).
Proof.
  intros Hsuper. unfold finalize_response. cbv zeta.
  rewrite mem_string_GET. unfold HTTP_405_METHOD_NOT_ALLOWED.
  destruct (Z.eqb_spec (status_code resp) 405) as [E|E];
    destruct (String.eqb_spec request_method "GET") as [M|M];
    cbn [negb andb]; rewrite ?Hsuper; cbn [status_code];
    repeat split; try tauto; try congruence; intros; tauto.
Qed.

End FinalizeFacts.

(** A handler's 200 answer to a PUT is replaced. *)
Lemma ingredient_viewset_is_read_only_witness :
  (forall r, status_code ((fun x : response => x) r) = status_code r) /\
  finalize_response (fun x => x) "PUT" (Response NoData 200)
  = Response (DictData [("detail", "Method Not Allowed.")]) 405 /\
  status_code (finalize_response (fun x => x) "PUT" (Response NoData 200)) = 405.
Proof.
  split; [intros r; reflexivity|]. split; [reflexivity|].
  refine (proj1 (@ingredient_viewset_is_read_only (fun x => x) "PUT"
                   (Response NoData 200) (fun r => eq_refl)) _).
  discriminate.
Defined.

(** ** The outcomes of the list actions *)



